(** * openclaw-warden: a shallow embedding of [src/warden.js]

    The watchdog is a Node.js script.  Its functions are embedded as Rocq
    functions over an explicit world (files, directories and a trace of
    observable events); everything the script obtains from the Node runtime
    (path algebra, clock, random numbers, the JSON parser, the Ajv validator,
    the behaviour of spawned subprocesses) is a field of one [Host] record.

    Conventions:
    - a JavaScript value that may be [undefined] is an [option]; [None] is
      [undefined], and a string is truthy iff it is not empty;
    - JavaScript strings are Rocq strings; every pattern searched for is
      ASCII, so working on bytes does not change matching;
    - [await] is sequencing: the script is single threaded and every
      function below runs to completion between two suspension points that
      matter to the properties (the interval loop is a step relation). *)

From Stdlib Require Import ZArith List String Ascii Bool Lia DecimalString.
From stdpp Require Import base option list gmap strings.

Local Open Scope Z_scope.
Local Open Scope nat_scope.

(** ** JavaScript string helpers *)

Module Js.

Definition truthy (v : option string) : bool :=
  match v with
  | Some s => negb (String.eqb s "")
  | None => false
  end.

(** [a || b] on possibly-undefined strings with a string fallback. *)
Definition or_else (v : option string) (d : string) : string :=
  match v with
  | Some s => if String.eqb s "" then d else s
  | None => d
  end.

(** [a ?? b] *)
Definition coalesce {A} (v : option A) (d : A) : A :=
  match v with Some x => x | None => d end.

(** [String(v)] *)
Definition toStr (v : option string) : string :=
  match v with Some s => s | None => "undefined" end.

(** [s.slice(n)] for [0 <= n] *)
Definition sliceFrom (n : nat) (s : string) : string :=
  String.substring n (String.length s - n) s.

(** [GetSubstitution] of ECMA-262 for a string pattern: there are no
    captures, so only [$$], [$&], [$`] and [$'] are special in the
    replacement text; every other [$] stands for itself. *)
Fixpoint getSubstitution (matched str : string) (position : nat)
    (template : string) : string :=
  match template with
  | EmptyString => EmptyString
  | String c tail =>
      if Ascii.eqb c "$" then
        match tail with
        | String d rest =>
            if Ascii.eqb d "$" then
              String "$" (getSubstitution matched str position rest)
            else if Ascii.eqb d "&" then
              matched +:+ getSubstitution matched str position rest
            else if Ascii.eqb d "`" then
              String.substring 0 position str
                +:+ getSubstitution matched str position rest
            else if Ascii.eqb d "'" then
              sliceFrom (position + String.length matched) str
                +:+ getSubstitution matched str position rest
            else String c (getSubstitution matched str position tail)
        | EmptyString => String c EmptyString
        end
      else String c (getSubstitution matched str position tail)
  end.

(** [str.replaceAll(pat, rep)] with a string pattern. [s] is the part of
    [str] from index [pos] on, [skip] counts the characters of the current
    match still to be dropped. Matches are found left to right and do not
    overlap. *)
Fixpoint replaceAllFrom (str pat rep : string) (pos skip : nat)
    (s : string) : string :=
  match s with
  | EmptyString =>
      match skip with
      | O => if String.prefix pat EmptyString
             then getSubstitution pat str pos rep else EmptyString
      | S _ => EmptyString
      end
  | String c s' =>
      match skip with
      | S k => replaceAllFrom str pat rep (S pos) k s'
      | O =>
          if String.prefix pat s then
            getSubstitution pat str pos rep +:+
              (if String.eqb pat EmptyString
               then String c (replaceAllFrom str pat rep (S pos) 0 s')
               else replaceAllFrom str pat rep (S pos)
                      (String.length pat - 1) s')
          else String c (replaceAllFrom str pat rep (S pos) 0 s')
      end
  end.

Definition replaceAll (str pat rep : string) : string :=
  replaceAllFrom str pat rep 0 0 str.

(** [s.includes(t)] *)
Fixpoint includes (t s : string) : bool :=
  String.prefix t s ||
  match s with
  | EmptyString => false
  | String _ s' => includes t s'
  end.

(** [s.split("\n")] *)
Fixpoint splitLinesAcc (cur : string) (s : string) : list string :=
  match s with
  | EmptyString => [String.rev cur]
  | String c s' =>
      if Ascii.eqb c "010"
      then String.rev cur :: splitLinesAcc EmptyString s'
      else splitLinesAcc (String c cur) s'
  end.

Definition splitLines (s : string) : list string :=
  splitLinesAcc EmptyString s.

(** [xs.join(sep)] *)
Fixpoint join (sep : string) (xs : list string) : string :=
  match xs with
  | [] => EmptyString
  | [x] => x
  | x :: rest => x +:+ sep +:+ join sep rest
  end.

End Js.

(** ** Configuration ([warden.config.json] after [JSON.parse]) *)

Record Paths := {
  repoConfig : option string;
  liveConfig : option string;
  schemaFile : option string
}.

Record GitCfg := {
  git_enabled : bool;       (* truthiness of [git.enabled] *)
  git_autoInit : bool       (* [Boolean(git.autoInit)] *)
}.

Record AgentProbe := {
  probe_enabled : bool;     (* [Boolean(agentProbe.enabled)] *)
  fallbackAgentId : option string;
  probe_command : option string
}.

Record Heartbeat := {
  intervalMinutes : option Z;
  waitSeconds : option (list Z);   (* [None]: not an array *)
  checkCommand : option string;
  sendCommand : option string;
  restartCommand : option string;
  notifyCommand : option string;
  notifyOnRestart : bool;   (* [Boolean(hb.notifyOnRestart)] *)
  agentProbe : option AgentProbe;
  target : option string
}.

Record Config := {
  configPath : option string;      (* [config.__configPath] *)
  paths : option Paths;
  git : option GitCfg;
  heartbeat : option Heartbeat
}.

(** [config.heartbeat || {}] *)
Definition emptyHeartbeat : Heartbeat :=
  {| intervalMinutes := None; waitSeconds := None; checkCommand := None;
     sendCommand := None; restartCommand := None; notifyCommand := None;
     notifyOnRestart := false; agentProbe := None; target := None |}.

(** ** The world: files, directories and the trace of observable events *)

Record ExecResult := {
  code : option Z;     (* [null] when the child was killed by a signal *)
  stdout : string;
  stderr : string
}.

Definition exitedZero (r : ExecResult) : bool :=
  match code r with
  | Some z => Z.eqb z 0
  | None => false
  end.

(** Where in the script a subprocess was spawned; the heartbeat sites carry
    the value of the loop variable [i]. *)
Inductive CallSite :=
  | SendFirst | Check (i : nat) | Probe (i : nat) | Resend (i : nat)
  | Restart | Notify
  | GitInit | GitStatus | GitAdd | GitCommit.

Inductive Level := Info | Warn | Error.

Inductive Event :=
  | EvSleep (ms : Z)
  | EvExec (site : CallSite) (dir : string) (command : string)
      (res : ExecResult)
  | EvLog (lvl : Level) (msg : string)
  | EvSchemaLoaded (path : string)
  | EvSchemaChecked
  | EvExit (status : Z).

Record Disk := {
  files : gmap string string;
  dirs : gset string
}.

Record World := {
  disk : Disk;
  trace : list Event
}.

(** A thrown JavaScript error: its [message] and what [String(err)] gives. *)
Record Exn := { message : string; shown : string }.

(** [new Error(msg)] *)
Definition mkError (msg : string) : Exn :=
  {| message := msg;
     shown := if String.eqb msg "" then "Error" else "Error: " +:+ msg |}.

Definition typeError (msg : string) : Exn :=
  {| message := msg; shown := "TypeError: " +:+ msg |}.

(** One entry of Ajv's [validate.errors]. *)
Record AjvError := {
  instancePath : option string;
  schemaPath : option string;
  ajv_message : option string
}.

(** Everything the script takes from the Node runtime and from the
    programs it spawns. The oracles that depend on time see the trace. *)
Record Host := {
  Json : Type;
  cwd : string;
  homedir : string;
  tmpdir : string;
  path_dirname : string -> string;
  path_basename : string -> string;
  path_join : list string -> string;
  path_isAbsolute : string -> bool;
  path_resolve : string -> string -> string;
  path_relative : string -> string -> string;
  str_trim : string -> string;
  date_now : list Event -> string;
  random_token : list Event -> string;
  now_iso : list Event -> string;
  (** [JSON.parse]: a syntax error or a value *)
  json_parse : string -> Exn + Json;
  (** [String(j?.[key])], [None] when [j?.[key]] is [null] or [undefined] *)
  json_field : Json -> string -> option string;
  (** [ajv.compile(schema)] then [validate(json)]: the verdict and
      [validate.errors] *)
  ajv_compile : Json -> Exn + (Json -> bool * option (list AjvError));
  (** a subprocess: history, disk, working directory, command line *)
  spawn_shell : list Event -> Disk -> string -> string -> ExecResult * Disk
}.

(** ** The monad of the script: state and exceptions *)

Inductive Outcome (A : Type) :=
  | Returns (a : A)
  | Throws (e : Exn).
Arguments Returns {A} a.
Arguments Throws {A} e.

Definition M (A : Type) : Type := World -> Outcome A * World.

Definition ret {A} (a : A) : M A := fun w => (Returns a, w).

Definition bind {A B} (m : M A) (k : A -> M B) : M B :=
  fun w =>
    match m w with
    | (Returns a, w') => k a w'
    | (Throws e, w') => (Throws e, w')
    end.

Definition throw {A} (e : Exn) : M A := fun w => (Throws e, w).

(** [try { m } catch (err) { h(err) }] *)
Definition tryCatch {A} (m : M A) (h : Exn -> M A) : M A :=
  fun w =>
    match m w with
    | (Returns a, w') => (Returns a, w')
    | (Throws e, w') => h e w'
    end.

(** [try { m } finally { f }] *)
Definition tryFinally {A} (m : M A) (f : M unit) : M A :=
  fun w =>
    match m w with
    | (Returns a, w') =>
        match f w' with
        | (Returns _, w'') => (Returns a, w'')
        | (Throws e, w'') => (Throws e, w'')
        end
    | (Throws e, w') =>
        match f w' with
        | (Returns _, w'') => (Throws e, w'')
        | (Throws e', w'') => (Throws e', w'')
        end
    end.

Definition emit (e : Event) : M unit :=
  fun w => (Returns tt, {| disk := disk w; trace := trace w ++ [e] |}).

Definition getWorld : M World := fun w => (Returns w, w).

Declare Scope warden_scope.
Delimit Scope warden_scope with warden.
Notation "'let!' x ':=' m 'in' k" := (bind m (fun x => k))
  (at level 10, x pattern, m at level 100, k at level 200) : warden_scope.
Notation "m1 '>>' m2" := (bind m1 (fun _ => m2))
  (at level 90, right associativity) : warden_scope.
Local Open Scope warden_scope.

(** ** Logging: one event per line (the timestamp prefix is left out) *)

Definition logInfo (msg : string) : M unit := emit (EvLog Info msg).
Definition logWarn (msg : string) : M unit := emit (EvLog Warn msg).
Definition logError (msg : string) : M unit := emit (EvLog Error msg).

Section Warden.

Context (H : Host).

(** ** Paths *)

Definition DEFAULT_CONFIG_NAME : string := "warden.config.json".
Definition DEFAULT_CONFIG_PATH : string :=
  path_join H [cwd H; DEFAULT_CONFIG_NAME].

Definition expandHome (inputPath : option string) : option string :=
  match inputPath with
  | Some p =>
      if negb (Js.truthy inputPath) then inputPath
      else if String.prefix "~/" p
           then Some (path_join H [homedir H; Js.sliceFrom 2 p])
           else inputPath
  | None => None
  end.

Definition resolvePathWithBase (inputPath : option string)
    (baseDir : string) : option string :=
  if negb (Js.truthy inputPath) then inputPath
  else match expandHome inputPath with
       | Some expanded =>
           Some (if path_isAbsolute H expanded then expanded
                 else path_resolve H baseDir expanded)
       | None => None
       end.

Definition configDirOf (config : Config) : string :=
  path_dirname H (Js.or_else (configPath config) DEFAULT_CONFIG_PATH).

(** ** Command templates *)

Definition formatCmd (template : string)
    (vars : list (string * option string)) : string :=
  fold_left
    (fun out kv =>
       Js.replaceAll out ("{" +:+ fst kv +:+ "}") (Js.toStr (snd kv)))
    vars template.

(** Property assignment keeps the position of a key that is already there. *)
Fixpoint setKey {V} (k : string) (v : V) (o : list (string * V))
    : list (string * V) :=
  match o with
  | [] => [(k, v)]
  | (k', v') :: r =>
      if String.eqb k k' then (k, v) :: r else (k', v') :: setKey k v r
  end.

(** [{ ...base, ...extra }] *)
Definition spread {V} (base extra : list (string * V)) : list (string * V) :=
  fold_left (fun o kv => setKey (fst kv) (snd kv) o) extra base.

Definition healthCachePath : string :=
  path_join H [tmpdir H; "openclaw-warden"; "health.json"].

(** The health cache as [buildCommand] reads it: [null] when the file is
    missing or does not parse. *)
Definition readHealthCache : M (option (Json H)) :=
  fun w =>
    match files (disk w) !! healthCachePath with
    | Some raw =>
        match json_parse H raw with
        | inr j => (Returns (Some j), w)
        | inl _ => (Returns None, w)
        end
    | None => (Returns None, w)
    end.

Definition cacheField (healthCache : option (Json H)) (key : string)
    : option string :=
  match healthCache with
  | Some j => json_field H j key
  | None => None
  end.

Definition baseVars (config : Config) (p : Paths)
    (healthCache : option (Json H)) : list (string * option string) :=
  let configDir := configDirOf config in
  [ ("repoConfig", resolvePathWithBase (repoConfig p) configDir);
    ("liveConfig", resolvePathWithBase (liveConfig p) configDir);
    ("target",
      Some (Js.coalesce (match heartbeat config with
                         | Some hb => target hb | None => None end) ""));
    ("agentId",
      Some (Js.coalesce (cacheField healthCache "agentId")
              (Js.coalesce
                 (match heartbeat config with
                  | Some hb =>
                      match agentProbe hb with
                      | Some ap => fallbackAgentId ap
                      | None => None
                      end
                  | None => None
                  end) "")));
    ("sessionId", Some (Js.coalesce (cacheField healthCache "sessionId") ""));
    ("sessionKey", Some (Js.coalesce (cacheField healthCache "sessionKey") ""))
  ].

(** [config.paths.repoConfig] throws when [config.paths] is missing, and
    [template.replaceAll] when the template is. *)
Definition buildCommand (template : option string) (config : Config)
    (extraVars : list (string * option string)) : M string :=
  match paths config with
  | None =>
      throw (typeError
               "Cannot read properties of undefined (reading 'repoConfig')")
  | Some p =>
      let! healthCache := readHealthCache in
      match template with
      | Some t =>
          ret (formatCmd t (spread (baseVars config p healthCache) extraVars))
      | None =>
          throw (typeError
                   "Cannot read properties of undefined (reading 'replaceAll')")
      end
  end.

(** [execShell]: the promise resolves when the child closes; it never
    rejects. [options.cwd || CWD]. *)
Definition execShell (site : CallSite) (command : string)
    (dir : option string) : M ExecResult :=
  fun w =>
    let d := Js.or_else dir (cwd H) in
    let '(res, dk) := spawn_shell H (trace w) (disk w) d command in
    (Returns res,
     {| disk := dk; trace := trace w ++ [EvExec site d command res] |}).

Definition sleep (ms : Z) : M unit := emit (EvSleep ms).

(** ** The heartbeat cycle *)

Definition hbOf (config : Config) : Heartbeat :=
  Js.coalesce (heartbeat config) emptyHeartbeat.

Definition agentProbeEnabled (config : Config) : bool :=
  match agentProbe (hbOf config) with
  | Some ap => probe_enabled ap
  | None => false
  end.

Definition agentProbeCommand (config : Config) : option string :=
  match agentProbe (hbOf config) with
  | Some ap => probe_command ap
  | None => None
  end.

Definition restartCommandOf (config : Config) : string :=
  Js.or_else (restartCommand (hbOf config)) "openclaw gateway restart".

Definition waitSecondsOf (config : Config) : list Z :=
  match waitSeconds (hbOf config) with
  | Some ws => ws
  | None => [30; 40; 50]%Z
  end.

(** The closure [send]; [site] tells the two call sites apart. *)
Definition send (config : Config) (id : string) (site : CallSite) : M unit :=
  let! cmd := buildCommand (sendCommand (hbOf config)) config
                [("id", Some id)] in
  logInfo ("Heartbeat send: " +:+ cmd) >>
  let! res := execShell site cmd None in
  if negb (exitedZero res)
  then logWarn ("Heartbeat send failed: " +:+ str_trim H (stderr res))
  else ret tt.

(** The closure [check], called at loop index [i]. *)
Definition check (config : Config) (id : string) (i : nat) : M bool :=
  let! cmd := buildCommand (checkCommand (hbOf config)) config
                [("id", Some id)] in
  let! res := execShell (Check i) cmd None in
  if negb (exitedZero res) then ret false
  else if negb (agentProbeEnabled config) then ret true
  else if negb (Js.truthy (agentProbeCommand config)) then
    logWarn "agentProbe enabled but command not configured; skipping probe." >>
    ret true
  else
    let! probeCmd := buildCommand (agentProbeCommand config) config
                       [("id", Some id)] in
    logInfo ("Agent probe: " +:+ probeCmd) >>
    let! probeRes := execShell (Probe i) probeCmd None in
    ret (exitedZero probeRes).

(** The [for] loop from index [i]; [rest] is [waitSeconds.slice(i)] and [n]
    is [waitSeconds.length]. The result tells whether the function returned
    from inside the loop. *)
Fixpoint attempts (config : Config) (id : string) (n i : nat)
    (rest : list Z) : M bool :=
  match rest with
  | [] => ret false
  | wait :: rest' =>
      sleep (wait * 1000)%Z >>
      let! ok := check config id i in
      if ok then logInfo "Heartbeat reply received." >> ret true
      else
        (if (Z.of_nat i <? Z.of_nat n - 1)%Z
         then (if Js.truthy (sendCommand (hbOf config))
               then send config id (Resend i) else ret tt)
         else ret tt) >>
        attempts config id n (S i) rest'
  end.

Definition runHeartbeatOnce (config : Config) : M unit :=
  if negb (Js.truthy (checkCommand (hbOf config))) then
    logWarn "Heartbeat checkCommand not configured. Skipping heartbeat."
  else
    let! w0 := getWorld in
    let id := date_now H (trace w0) +:+ "-" +:+ random_token H (trace w0) in
    (if Js.truthy (sendCommand (hbOf config))
     then send config id SendFirst else ret tt) >>
    let! returned :=
      attempts config id (length (waitSecondsOf config)) 0
        (waitSecondsOf config) in
    if returned then ret tt
    else
      logWarn "Heartbeat failed after retries. Restarting gateway..." >>
      let! cmd := buildCommand (Some (restartCommandOf config)) config
                    [("id", Some id)] in
      let! res := execShell Restart cmd None in
      (if negb (exitedZero res)
       then logWarn ("Restart command failed: " +:+ str_trim H (stderr res))
       else ret tt) >>
      if notifyOnRestart (hbOf config)
         && Js.truthy (notifyCommand (hbOf config))
      then
        let! cmd := buildCommand (notifyCommand (hbOf config)) config
                      [("id", Some id)] in
        logInfo ("Notify restart: " +:+ cmd) >>
        let! notifyRes := execShell Notify cmd None in
        if negb (exitedZero notifyRes)
        then logWarn ("Notify command failed: "
                        +:+ str_trim H (stderr notifyRes))
        else ret tt
      else ret tt.

(** ** File system primitives *)

Definition errorText (err : Exn) : string :=
  if String.eqb (message err) "" then shown err else message err.

(** [fs.existsSync] *)
Definition existsSync (w : World) (p : option string) : bool :=
  match p with
  | Some q =>
      bool_decide (is_Some (files (disk w) !! q))
      || bool_decide (q ∈ dirs (disk w))
  | None => false
  end.

Definition needPath (p : option string) : M string :=
  match p with
  | Some q => ret q
  | None =>
      throw (typeError
               "The path argument must be of type string. Received undefined")
  end.

Definition enoent (op p : string) : Exn :=
  mkError ("ENOENT: no such file or directory, " +:+ op +:+ " '" +:+ p +:+ "'").

(** [fsp.readFile(p, "utf8")] *)
Definition readFile (p : option string) : M string :=
  let! q := needPath p in
  fun w =>
    match files (disk w) !! q with
    | Some content => (Returns content, w)
    | None => (Throws (enoent "open" q), w)
    end.

(** [fsp.mkdir(dir, { recursive: true })]; parents are not tracked. *)
Definition ensureDir (dirPath : string) : M unit :=
  fun w =>
    match files (disk w) !! dirPath with
    | Some _ =>
        (Throws (mkError ("EEXIST: file already exists, mkdir '"
                            +:+ dirPath +:+ "'")), w)
    | None =>
        (Returns tt,
         {| disk := {| files := files (disk w);
                       dirs := {[dirPath]} ∪ dirs (disk w) |};
            trace := trace w |})
    end.

(** [fsp.copyFile(src, dest)] *)
Definition copyFile (src dest : option string) : M unit :=
  let! s := needPath src in
  let! d := needPath dest in
  fun w =>
    match files (disk w) !! s with
    | Some content =>
        (Returns tt,
         {| disk := {| files := <[d := content]> (files (disk w));
                       dirs := dirs (disk w) |};
            trace := trace w |})
    | None => (Throws (enoent "copyfile" s), w)
    end.

(** [fsp.rename(from, to)] *)
Definition rename (from to : string) : M unit :=
  fun w =>
    match files (disk w) !! from with
    | Some content =>
        (Returns tt,
         {| disk := {| files := <[to := content]> (delete from (files (disk w)));
                       dirs := dirs (disk w) |};
            trace := trace w |})
    | None => (Throws (enoent "rename" from), w)
    end.

(** ** Version control *)

Definition dquote : string := String "034" EmptyString.

Definition ensureGitRepo (repoDir : string) (autoInit : bool) : M bool :=
  let gitDir := path_join H [repoDir; ".git"] in
  let! w := getWorld in
  if existsSync w (Some gitDir) then ret true
  else if negb autoInit then ret false
  else
    let! res := execShell GitInit "git init" (Some repoDir) in
    if negb (exitedZero res) then
      logWarn ("git init failed: " +:+ str_trim H (stderr res)) >> ret false
    else ret true.

(** [status.stdout.split("\n").filter(Boolean).some(line =>
      files.some(file => line.includes(file)))] *)
Definition statusMentions (out : string) (fileNames : list string) : bool :=
  existsb
    (fun line => existsb (fun file => Js.includes file line) fileNames)
    (List.filter (fun line => Js.truthy (Some line)) (Js.splitLines out)).

Definition gitCommitIfChanged (repoDir : string) (fileNames : list string)
    (msg : string) : M unit :=
  let! status := execShell GitStatus "git status --porcelain" (Some repoDir) in
  if negb (exitedZero status) then
    logWarn ("git status failed: " +:+ str_trim H (stderr status))
  else if negb (statusMentions (stdout status) fileNames) then ret tt
  else
    let addCmd :=
      "git add " +:+
      Js.join " " (map (fun f => dquote +:+ f +:+ dquote) fileNames) in
    let! addRes := execShell GitAdd addCmd (Some repoDir) in
    if negb (exitedZero addRes) then
      logWarn ("git add failed: " +:+ str_trim H (stderr addRes))
    else
      let! commitRes :=
        execShell GitCommit ("git commit -m " +:+ dquote +:+ msg +:+ dquote)
          (Some repoDir) in
      if negb (exitedZero commitRes) then
        logWarn ("git commit failed: " +:+ str_trim H (stderr commitRes))
      else ret tt.

(** The tail shared by [syncPull], [syncPush] and [initWarden]. *)
Definition commitManaged (config : Config) (repoRoot repoConfigPath : string)
    (verb : string) : M unit :=
  match git config with
  | Some g =>
      if git_enabled g then
        let! gitReady := ensureGitRepo repoRoot (git_autoInit g) in
        if gitReady then
          let! w := getWorld in
          gitCommitIfChanged repoRoot
            [path_relative H repoRoot repoConfigPath]
            (verb +:+ " " +:+ now_iso H (trace w))
        else ret tt
      else ret tt
  | None => ret tt
  end.

(** ** Validation *)

Definition loadSchema (schemaPath : option string) : M (Json H) :=
  emit (EvSchemaLoaded (Js.toStr schemaPath)) >>
  let! w := getWorld in
  if negb (existsSync w schemaPath) then
    throw (mkError ("Schema file not found: " +:+ Js.toStr schemaPath))
  else
    let! raw := readFile schemaPath in
    match json_parse H raw with
    | inr schema => ret schema
    | inl err => throw err
    end.

Definition formatAjvError (e : AjvError) : string :=
  let at_ :=
    if Js.truthy (instancePath e) then Js.toStr (instancePath e)
    else Js.or_else (schemaPath e) "" in
  "- " +:+ at_ +:+ " " +:+ Js.or_else (ajv_message e) "invalid".

Definition newline : string := String "010" EmptyString.

Definition withPaths {A} (config : Config) (k : Paths -> M A) : M A :=
  match paths config with
  | Some p => k p
  | None =>
      throw (typeError
               "Cannot read properties of undefined (reading 'repoConfig')")
  end.

Definition validateConfig (config : Config) : M bool :=
  let configDir := configDirOf config in
  withPaths config (fun p =>
    let repoConfigPath := resolvePathWithBase (repoConfig p) configDir in
    let schemaPath := resolvePathWithBase (schemaFile p) configDir in
    let! raw := readFile repoConfigPath in
    match json_parse H raw with
    | inl err => throw (mkError ("Invalid JSON: " +:+ errorText err))
    | inr json =>
        let! schema := loadSchema schemaPath in
        match ajv_compile H schema with
        | inl err => throw err
        | inr validate =>
            emit EvSchemaChecked >>
            let '(ok, errs) := validate json in
            if negb ok then
              let errors := map formatAjvError (Js.coalesce errs []) in
              let detail := Js.join newline errors in
              throw (mkError ("Schema validation failed:" +:+ newline
                                +:+ detail))
            else ret true
        end
    end).

(** ** Synchronisation *)

Definition dirnameOf (p : option string) : M string :=
  let! q := needPath p in ret (path_dirname H q).

Definition atomicCopy (srcPath destPath : option string) : M unit :=
  let! dest := needPath destPath in
  let dir := path_dirname H dest in
  ensureDir dir >>
  let! w := getWorld in
  let tempPath :=
    path_join H [dir; "." +:+ path_basename H dest +:+ ".tmp-"
                        +:+ date_now H (trace w)] in
  copyFile srcPath (Some tempPath) >>
  rename tempPath dest.

Definition syncPull (config : Config) : M unit :=
  let configDir := configDirOf config in
  withPaths config (fun p =>
    let repoConfigPath := resolvePathWithBase (repoConfig p) configDir in
    let! repoRoot := dirnameOf repoConfigPath in
    let liveConfigPath := resolvePathWithBase (liveConfig p) configDir in
    let! w := getWorld in
    if negb (existsSync w liveConfigPath) then
      throw (mkError ("Live config not found: " +:+ Js.toStr liveConfigPath))
    else
      ensureDir repoRoot >>
      copyFile liveConfigPath repoConfigPath >>
      logInfo ("Pulled live config -> repo: " +:+ Js.toStr repoConfigPath) >>
      commitManaged config repoRoot (Js.toStr repoConfigPath) "sync pull").

Definition syncPush (config : Config) : M unit :=
  let configDir := configDirOf config in
  withPaths config (fun p =>
    let repoConfigPath := resolvePathWithBase (repoConfig p) configDir in
    let! repoRoot := dirnameOf repoConfigPath in
    let liveConfigPath := resolvePathWithBase (liveConfig p) configDir in
    validateConfig config >>
    atomicCopy repoConfigPath liveConfigPath >>
    logInfo ("Pushed repo config -> live: " +:+ Js.toStr liveConfigPath) >>
    commitManaged config repoRoot (Js.toStr repoConfigPath) "sync push").

(** The debounced callback of [watchConfig]. *)
Definition watchCallback (config : Config) : M unit :=
  tryCatch
    (syncPush config >> logInfo "Applied config after change.")
    (fun err => logError (errorText err)).

(** ** The interval loop *)

(** One [tick] whose guard is passed and which is awaited to its end. *)
Definition tickBody (config : Config) : M unit :=
  tryFinally (runHeartbeatOnce config) (ret tt).

(** [runHeartbeatLoop] up to the installation of the timer: [running] is
    [false], so the first tick passes its guard. *)
Definition runHeartbeatLoop (config : Config) : M unit :=
  tickBody config >> ret tt.

(** [main().catch(...)] for the command [heartbeat], the configuration
    being loaded. *)
Definition mainHeartbeat (config : Config) : M unit :=
  tryCatch (runHeartbeatLoop config)
    (fun err => logError (errorText err) >> emit (EvExit 1)).

End Warden.

(** ** The timer loop of [runHeartbeatLoop] as a transition system

    [tick] has one suspension point, the [await] of [runHeartbeatOnce]; the
    code before it and the [finally] block after it each run without
    interruption. [running] is the closure variable of the source;
    [inFlight] and [started] are ghost counters: the cycles begun and not
    yet settled, and the cycles begun so far. *)

Record LoopState := {
  running : bool;
  inFlight : nat;
  started : nat
}.

Definition loopInit : LoopState :=
  {| running := false; inFlight := 0; started := 0 |}.

(** [if (running) return; running = true; ... runHeartbeatOnce(config)] *)
Definition tickEnter (s : LoopState) : LoopState :=
  if running s then s
  else {| running := true; inFlight := S (inFlight s);
          started := S (started s) |}.

(** [finally { running = false; }], when the awaited cycle settles *)
Definition tickSettle (s : LoopState) : LoopState :=
  {| running := false; inFlight := pred (inFlight s); started := started s |}.

Inductive LoopEvent := TimerFires | CycleSettles.

(** A cycle can only settle when one is in flight. *)
Definition loopStep (s : LoopState) (e : LoopEvent) : LoopState :=
  match e with
  | TimerFires => tickEnter s
  | CycleSettles =>
      match inFlight s with
      | O => s
      | S _ => tickSettle s
      end
  end.

Definition loopRun (evs : list LoopEvent) : LoopState :=
  fold_left loopStep evs loopInit.

(** ** Reading a trace *)

Definition execOf (e : Event) : option (CallSite * ExecResult) :=
  match e with
  | EvExec site _ _ res => Some (site, res)
  | _ => None
  end.

(** The subprocesses of a trace, in order: where each was spawned and how
    it ended. *)
Definition execsOf (tr : list Event) : list (CallSite * ExecResult) :=
  omap execOf tr.

Definition sitesOf (tr : list Event) : list CallSite :=
  map fst (execsOf tr).

Definition sleepsOf (tr : list Event) : list Z :=
  omap (fun e => match e with EvSleep ms => Some ms | _ => None end) tr.

Definition isCheck (s : CallSite) : bool :=
  match s with Check _ => true | _ => false end.
Definition isSend (s : CallSite) : bool :=
  match s with SendFirst | Resend _ => true | _ => false end.
Definition isRestart (s : CallSite) : bool :=
  match s with Restart => true | _ => false end.
Definition isNotify (s : CallSite) : bool :=
  match s with Notify => true | _ => false end.
Definition isCommit (s : CallSite) : bool :=
  match s with GitCommit => true | _ => false end.

Definition countSites (p : CallSite -> bool) (tr : list Event) : nat :=
  length (List.filter p (sitesOf tr)).

Definition checkPassedAt (i : nat) (x : CallSite * ExecResult) : bool :=
  match fst x with
  | Check j => Nat.eqb j i && exitedZero (snd x)
  | _ => false
  end.

Definition probePassedAt (i : nat) (x : CallSite * ExecResult) : bool :=
  match fst x with
  | Probe j => Nat.eqb j i && exitedZero (snd x)
  | _ => false
  end.

(** The check of attempt [i] was run and exited with code 0. *)
Definition checkPassed (i : nat) (tr : list Event) : bool :=
  existsb (checkPassedAt i) (execsOf tr).

(** The probe of attempt [i] was run and exited with code 0. *)
Definition probePassed (i : nat) (tr : list Event) : bool :=
  existsb (probePassedAt i) (execsOf tr).

(** The probe applies: it is enabled and has a command. *)
Definition probeApplies (config : Config) : bool :=
  agentProbeEnabled config && Js.truthy (agentProbeCommand config).

(** The cycle notifies after a restart: [notifyOnRestart && notifyCommand]. *)
Definition notifies (config : Config) : bool :=
  notifyOnRestart (hbOf config) && Js.truthy (notifyCommand (hbOf config)).

(** Attempt [i] as the trace records it: the check exited 0 and so did the
    probe when it applies. *)
Definition attemptHealthy (config : Config) (i : nat) (tr : list Event)
    : bool :=
  checkPassed i tr && (negb (probeApplies config) || probePassed i tr).

(** [git status --porcelain] prints one line per changed path: two status
    letters, a space, the path. The repository reports [file] as changed
    when one of the lines is the line of that path. *)
Definition statusReports (out file : string) : bool :=
  existsb (fun line => String.eqb (Js.sliceFrom 3 line) file)
    (Js.splitLines out).

(** The events a computation adds to the trace. *)
Definition eventsOf {A} (m : M A) (w : World) : list Event :=
  drop (length (trace w)) (trace (snd (m w))).

(** ** A small concrete host, to run the script on examples *)

Module Demo.

Fixpoint lastSlash (s : string) : option nat :=
  match s with
  | EmptyString => None
  | String c s' =>
      match lastSlash s' with
      | Some k => Some (S k)
      | None => if Ascii.eqb c "/" then Some 0 else None
      end
  end.

Definition dirname (p : string) : string :=
  match lastSlash p with
  | Some 0 => "/"
  | Some k => String.substring 0 k p
  | None => "."
  end.

Definition basename (p : string) : string :=
  match lastSlash p with
  | Some k => Js.sliceFrom (S k) p
  | None => p
  end.

Definition relative (from to : string) : string :=
  if String.prefix (from +:+ "/") to
  then Js.sliceFrom (S (String.length from)) to else to.

Definition syntaxError : Exn :=
  {| message := "Unexpected token in JSON";
     shown := "SyntaxError: Unexpected token in JSON" |}.

(** Two violations, the first at the root of the document. *)
Definition twoErrors : list AjvError :=
  [ {| instancePath := Some ""; schemaPath := Some "#/required";
       ajv_message := Some "must have required property 'gateway'" |};
    {| instancePath := Some "/port"; schemaPath := Some "#/properties/port/type";
       ajv_message := Some "must be number" |} ].

(** JSON values are kept as their text; a document is well formed when it
    starts with a brace, and valid when it is the empty object. *)
Definition host
    (shell : list Event -> Disk -> string -> string -> ExecResult * Disk)
    : Host :=
  {| Json := string;
     cwd := "/srv/warden";
     homedir := "/home/op";
     tmpdir := "/tmp";
     path_dirname := dirname;
     path_basename := basename;
     path_join := Js.join "/";
     path_isAbsolute := String.prefix "/";
     path_resolve := fun base p => base +:+ "/" +:+ p;
     path_relative := relative;
     str_trim := fun s => s;
     date_now := fun tr => "1700000000000";
     random_token := fun tr => "k3x9qa";
     now_iso := fun tr => "2024-01-01T00:00:00.000Z";
     json_parse := fun raw =>
       if String.prefix "{" raw then inr raw else inl syntaxError;
     json_field := fun j key => None;
     ajv_compile := fun schema =>
       inr (fun json =>
              if String.eqb json "{}" then (true, None)
              else (false, Some twoErrors));
     spawn_shell := shell |}.

Definition exited (c : Z) (out : string) : ExecResult :=
  {| code := Some c; stdout := out; stderr := "" |}.

(** Every subprocess fails. *)
Definition shellDown : list Event -> Disk -> string -> string
    -> ExecResult * Disk :=
  fun tr d dir cmd => (exited 1 "", d).

(** Subprocesses fail until the second sleep is over, then succeed. *)
Definition shellUpLate : list Event -> Disk -> string -> string
    -> ExecResult * Disk :=
  fun tr d dir cmd =>
    (exited (if Nat.leb 2 (length (sleepsOf tr)) then 0 else 1) "", d).

(** Every subprocess succeeds; [git status] lists one staged file, a
    backup copy whose name starts with the name of the managed file. *)
Definition shellBackupStaged : list Event -> Disk -> string -> string
    -> ExecResult * Disk :=
  fun tr d dir cmd =>
    (exited 0 (if String.eqb cmd "git status --porcelain"
               then "A  openclaw.json.bak" +:+ newline else ""), d).

(** Every subprocess succeeds and [git status] lists nothing. *)
Definition shellClean : list Event -> Disk -> string -> string
    -> ExecResult * Disk :=
  fun tr d dir cmd => (exited 0 "", d).

(** The health check succeeds and every other subprocess fails. *)
Definition shellProbeDown : list Event -> Disk -> string -> string
    -> ExecResult * Disk :=
  fun tr d dir cmd =>
    (exited (if String.eqb cmd "node ./src/check-health.js" then 0 else 1) "",
     d).

Definition probe : AgentProbe :=
  {| probe_enabled := true; fallbackAgentId := Some "main";
     probe_command := Some "node ./src/check-agent-probe.js" |}.

Definition hb : Heartbeat :=
  {| intervalMinutes := Some 5%Z;
     waitSeconds := Some [30; 40; 50]%Z;
     checkCommand := Some "node ./src/check-health.js";
     sendCommand := None;
     restartCommand := Some "openclaw gateway restart";
     notifyCommand := Some "openclaw agent --agent {agentId} --deliver";
     notifyOnRestart := true;
     agentProbe := Some probe;
     target := None |}.

Definition thePaths : Paths :=
  {| repoConfig := Some "/srv/warden/config/openclaw.json";
     liveConfig := Some "/home/op/.openclaw/openclaw.json";
     schemaFile := Some "/srv/warden/state/schema.json" |}.

Definition config : Config :=
  {| configPath := Some "/srv/warden/warden.config.json";
     paths := Some thePaths;
     git := Some {| git_enabled := true; git_autoInit := true |};
     heartbeat := Some hb |}.

(** The same configuration without its [paths] object. *)
Definition configNoPaths : Config :=
  {| configPath := configPath config; paths := None;
     git := git config; heartbeat := heartbeat config |}.

(** The same configuration without a check command. *)
Definition configNoCheck : Config :=
  {| configPath := configPath config; paths := paths config;
     git := git config;
     heartbeat := Some
       {| intervalMinutes := Some 5%Z; waitSeconds := Some [30; 40; 50]%Z;
          checkCommand := None; sendCommand := Some "openclaw ping";
          restartCommand := None; notifyCommand := None;
          notifyOnRestart := true; agentProbe := Some probe;
          target := None |} |}.

(** A fallback agent id that holds a dollar pair. *)
Definition configDollar : Config :=
  {| configPath := configPath config; paths := paths config;
     git := git config;
     heartbeat := Some
       {| intervalMinutes := Some 5%Z; waitSeconds := Some [30; 40; 50]%Z;
          checkCommand := checkCommand hb; sendCommand := None;
          restartCommand := None;
          notifyCommand := notifyCommand hb;
          notifyOnRestart := true;
          agentProbe := Some {| probe_enabled := false;
                                fallbackAgentId := Some "ops$$1";
                                probe_command := None |};
          target := None |} |}.

Definition diskOf (managed live : string) : Disk :=
  {| files := {[ "/srv/warden/config/openclaw.json" := managed;
                 "/home/op/.openclaw/openclaw.json" := live;
                 "/srv/warden/state/schema.json" := "{}" ]};
     dirs := {[ "/srv/warden/config/.git" ]} |}.

Definition world (managed live : string) : World :=
  {| disk := diskOf managed live; trace := [] |}.

End Demo.

Definition replyLine : Event := EvLog Info "Heartbeat reply received.".

(** [m], started in [w], returns [a], adds the events [evs] to the trace and
    leaves the world [w']. *)
Definition runs {A} (m : M A) (w : World) (a : A) (evs : list Event)
    (w' : World) : Prop :=
  m w = (Returns a, w') /\ trace w' = trace w ++ evs.

(** No check or probe of attempt [k] passed in [evs]. *)
Definition silent (k : nat) (evs : list Event) : Prop :=
  checkPassed k evs = false /\ probePassed k evs = false.

(** ** Templates, as the documentation words them

    A template is text with placeholders; filling it replaces, in one
    pass, every placeholder whose name is a variable with the value of the
    variable and leaves the other placeholders as they are. [fill] is this
    reading; [formatCmd] above is the script's. *)




Fixpoint lookupVar (name : string) (vars : list (string * option string))
    : option (option string) :=
  match vars with
  | [] => None
  | (k, v) :: r => if String.eqb name k then Some v else lookupVar name r
  end.







(** * More of the script *)

(** ** What a computation leaves alone *)

(** The subprocesses of the host never change the content of [q]. *)
Definition shellKeeps (H : Host) (q : string) : Prop :=
  forall tr d dir cmd,
    files (snd (spawn_shell H tr d dir cmd)) !! q = files d !! q.

(** [m] never changes the content of [q]. *)
Definition keeps {A} (q : string) (m : M A) : Prop :=
  forall w, files (disk (snd (m w))) !! q = files (disk w) !! q.

(** [m] always returns. *)
Definition returns {A} (m : M A) : Prop :=
  forall w, exists a, fst (m w) = Returns a.

Section Seeding.

Context (H : Host).

(** [fsp.writeFile(p, data, "utf8")] *)
Definition writeFile (p : option string) (data : string) : M unit :=
  let! q := needPath p in
  fun w =>
    (Returns tt,
     {| disk := {| files := <[q := data]> (files (disk w));
                   dirs := dirs (disk w) |};
        trace := trace w |}).

(** [initWarden]; [writeJson(path, {})] writes the text of the empty
    object. *)
Definition initWarden (config : Config) : M unit :=
  let configDir := configDirOf H config in
  withPaths config (fun p =>
    let repoConfigPath := resolvePathWithBase H (repoConfig p) configDir in
    let! repoRoot := dirnameOf H repoConfigPath in
    let liveConfigPath := resolvePathWithBase H (liveConfig p) configDir in
    ensureDir repoRoot >>
    let! w := getWorld in
    (if existsSync w liveConfigPath && negb (existsSync w repoConfigPath)
     then
       copyFile liveConfigPath repoConfigPath >>
       logInfo ("Seeded repo config from live: " +:+ Js.toStr repoConfigPath)
     else if negb (existsSync w repoConfigPath) then
       writeFile repoConfigPath "{}" >>
       logInfo ("Created empty repo config: " +:+ Js.toStr repoConfigPath)
     else ret tt) >>
    commitManaged H config repoRoot (Js.toStr repoConfigPath) "init").


End Seeding.

(** ** The debounce of [watchConfig]

    [schedule] clears the pending timer and arms a new one, 400 ms later.
    Time is explicit: [pending] is the time at which the armed timer
    fires, if one is armed, and [pushed] lists the times at which the
    callback, hence a push, was started. *)

Record Watcher := {
  pending : option Z;
  pushed : list Z
}.

Definition watcherInit : Watcher := {| pending := None; pushed := [] |}.

(** The armed timer fires when its time has come. *)
Definition expire (now : Z) (s : Watcher) : Watcher :=
  match pending s with
  | Some due =>
      if (due <=? now)%Z
      then {| pending := None; pushed := pushed s ++ [due] |}
      else s
  | None => s
  end.

(** [if (timer) clearTimeout(timer); timer = setTimeout(..., 400)] *)
Definition schedule (now : Z) (s : Watcher) : Watcher :=
  {| pending := Some (now + 400)%Z; pushed := pushed s |}.

(** A change notification at time [now]. *)
Definition onChange (s : Watcher) (now : Z) : Watcher :=
  schedule now (expire now s).

(** The changes at the times [changes], then the clock runs to [horizon]. *)
Definition watchRun (changes : list Z) (horizon : Z) : Watcher :=
  expire horizon (fold_left onChange changes watcherInit).

(** The last change of every burst: a change that is the last one, or that
    is followed by the next one 400 ms later or more. *)
Fixpoint burstEnds (changes : list Z) : list Z :=
  match changes with
  | [] => []
  | t :: rest =>
      match rest with
      | [] => [t]
      | t' :: _ =>
          if (t + 400 <=? t')%Z then t :: burstEnds rest else burstEnds rest
      end
  end.

Fixpoint increasing (changes : list Z) : Prop :=
  match changes with
  | [] => True
  | t :: rest =>
      match rest with
      | [] => True
      | t' :: _ => (t <= t')%Z /\ increasing rest
      end
  end.

(** Every change comes less than 400 ms after the one before. *)
Fixpoint tight (changes : list Z) : Prop :=
  match changes with
  | [] => True
  | t :: rest =>
      match rest with
      | [] => True
      | t' :: _ => (t <= t' < t + 400)%Z /\ tight rest
      end
  end.

(** ** The daemon supervisor *)

(** What the operating system did for the script. *)
Inductive OsEvent (P : Type) :=
  | Spawned (pid : option P)
  | Terminated (pid : P).
Arguments Spawned {P} pid.
Arguments Terminated {P} pid.

(** Process ids are JavaScript numbers; the process table is an oracle
    over what happened so far. *)
Record Os := {
  Pid : Type;
  (** [Number(raw.trim())], kept when [Number.isFinite] holds *)
  pid_of_text : string -> option Pid;
  (** a number is falsy when it is zero *)
  pid_truthy : Pid -> bool;
  (** the number inside a template literal *)
  pid_text : Pid -> string;
  (** [process.kill(pid, 0)] does not throw *)
  probe_alive : list Event -> list (OsEvent Pid) -> Pid -> bool;
  (** [process.kill(pid, "SIGTERM")]: what it throws, if it does *)
  send_term : list Event -> list (OsEvent Pid) -> Pid -> option Exn;
  (** [spawn(...)]: [child.pid] *)
  spawn_child : list Event -> list (OsEvent Pid) -> option Pid
}.

Record DState (os : Os) := {
  dworld : World;
  oslog : list (OsEvent (Pid os))
}.
Arguments dworld {os} d.
Arguments oslog {os} d.

Definition DM (os : Os) (A : Type) : Type :=
  DState os -> Outcome A * DState os.

Definition dret {os A} (a : A) : DM os A := fun s => (Returns a, s).

Definition dbind {os A B} (m : DM os A) (k : A -> DM os B) : DM os B :=
  fun s =>
    match m s with
    | (Returns a, s') => k a s'
    | (Throws e, s') => (Throws e, s')
    end.

(** A computation on files and logs, run inside the supervisor. *)
Definition lift {os A} (m : M A) : DM os A :=
  fun s =>
    match m (dworld s) with
    | (r, w') => (r, {| dworld := w'; oslog := oslog s |})
    end.

Notation "'let*' x ':=' m 'in' k" := (dbind m (fun x => k))
  (at level 10, x pattern, m at level 100, k at level 200) : warden_scope.

Section Daemon.

Context (H : Host) (os : Os).

Definition DAEMON_DIR : string := path_join H [tmpdir H; "openclaw-warden"].
Definition DAEMON_PID : string := path_join H [DAEMON_DIR; "warden.pid"].
Definition DAEMON_LOG : string := path_join H [DAEMON_DIR; "warden.log"].

Definition pidText (pid : option (Pid os)) : string :=
  match pid with
  | Some n => pid_text os n
  | None => "undefined"
  end.

Definition pidTruthy (pid : option (Pid os)) : bool :=
  match pid with
  | Some n => pid_truthy os n
  | None => false
  end.

Definition readPid : DM os (option (Pid os)) :=
  lift (tryCatch
          (let! raw := readFile (Some DAEMON_PID) in ret (pid_of_text os raw))
          (fun _ => ret None)).

Definition writePid (pid : option (Pid os)) : DM os unit :=
  lift (ensureDir (path_dirname H DAEMON_PID) >>
        writeFile (Some DAEMON_PID) (pidText pid +:+ newline)).

(** [fsp.unlink] in a [try] whose [catch] is empty *)
Definition clearPid : DM os unit :=
  lift (fun w =>
          (Returns tt,
           {| disk := {| files := delete DAEMON_PID (files (disk w));
                         dirs := dirs (disk w) |};
              trace := trace w |})).

Definition isProcessAlive (pid : option (Pid os)) : DM os bool :=
  fun s =>
    match pid with
    | Some n =>
        if negb (pid_truthy os n) then (Returns false, s)
        else (Returns (probe_alive os (trace (dworld s)) (oslog s) n), s)
    | None => (Returns false, s)
    end.

(** [fs.openSync(path, "a")]: the file is created when it is missing. *)
Definition openAppend (path : string) : M unit :=
  fun w =>
    match files (disk w) !! path with
    | Some _ => (Returns tt, w)
    | None =>
        (Returns tt,
         {| disk := {| files := <[path := EmptyString]> (files (disk w));
                       dirs := dirs (disk w) |};
            trace := trace w |})
    end.

Definition spawnDaemon : DM os (option (Pid os)) :=
  fun s =>
    let pid := spawn_child os (trace (dworld s)) (oslog s) in
    (Returns pid, {| dworld := dworld s; oslog := oslog s ++ [Spawned pid] |}).

Definition daemonStart : DM os unit :=
  let* existingPid := readPid in
  let* alive :=
    (if pidTruthy existingPid then isProcessAlive existingPid
     else dret false) in
  if alive then
    lift (logInfo ("Daemon already running (pid " +:+ pidText existingPid
                     +:+ ")."))
  else
    let* _ := lift (ensureDir DAEMON_DIR) in
    let* _ := lift (openAppend DAEMON_LOG) in
    let* _ := lift (openAppend DAEMON_LOG) in
    let* childPid := spawnDaemon in
    let* _ := writePid childPid in
    lift (logInfo ("Daemon started (pid " +:+ pidText childPid +:+ ").")).

Definition killTerm (n : Pid os) : DM os unit :=
  fun s =>
    let s' := {| dworld := dworld s; oslog := oslog s ++ [Terminated n] |} in
    match send_term os (trace (dworld s)) (oslog s) n with
    | Some err => (Throws err, s')
    | None => (Returns tt, s')
    end.

Definition dtryCatch {A} (m : DM os A) (h : Exn -> DM os A) : DM os A :=
  fun s =>
    match m s with
    | (Returns a, s') => (Returns a, s')
    | (Throws e, s') => h e s'
    end.

Definition daemonStop : DM os unit :=
  let* pid := readPid in
  match pid with
  | Some n =>
      if negb (pid_truthy os n) then lift (logWarn "Daemon pid not found.")
      else
        let* _ :=
          dtryCatch (killTerm n)
            (fun err =>
               lift (logWarn ("Failed to stop daemon: " +:+ shown err))) in
        let* _ := clearPid in
        lift (logInfo ("Daemon stopped (pid " +:+ pid_text os n +:+ ")."))
  | None => lift (logWarn "Daemon pid not found.")
  end.

Definition daemonStatus : DM os unit :=
  let* pid := readPid in
  let* alive :=
    (if pidTruthy pid then isProcessAlive pid else dret false) in
  if alive then
    lift (logInfo ("Daemon running (pid " +:+ pidText pid +:+ ")."))
  else lift (logInfo "Daemon not running.").

End Daemon.

(** The process id on record, as [readPid] gives it. *)
Definition recordedPid (H : Host) (os : Os) (s : DState os)
    : option (Pid os) :=
  match files (disk (dworld s)) !! DAEMON_PID H with
  | Some raw => pid_of_text os raw
  | None => None
  end.

(** A process id is on record, it is not zero and the process answers. *)
Definition recordedAlive (H : Host) (os : Os) (s : DState os) : bool :=
  match recordedPid H os s with
  | Some n =>
      pid_truthy os n && probe_alive os (trace (dworld s)) (oslog s) n
  | None => false
  end.

Definition spawnsOf {P} (log : list (OsEvent P)) : nat :=
  length (List.filter (fun e => match e with Spawned _ => true | _ => false end)
            log).

Definition signalsOf {P} (log : list (OsEvent P)) : nat :=
  length (List.filter
            (fun e => match e with Terminated _ => true | _ => false end) log).

(** A small process table: ids are natural numbers written in decimal,
    every spawn gives the id 4242, and a process answers from the moment it
    was spawned until it is sent the termination signal. *)
Module DemoOs.

Definition dropNewline (s : string) : string :=
  match String.rev s with
  | String c r => if Ascii.eqb c "010" then String.rev r else s
  | EmptyString => s
  end.

Definition parsePid (s : string) : option N :=
  match Stdlib.Strings.String.length (dropNewline s) with
  | O => Some 0%N
  | S _ =>
      match DecimalString.NilEmpty.uint_of_string (dropNewline s) with
      | Some u => Some (N.of_uint u)
      | None => None
      end
  end.

Definition showPid (n : N) : string :=
  DecimalString.NilZero.string_of_uint (N.to_uint n).

Definition spawnedAndNotKilled (log : list (OsEvent N)) (n : N) : bool :=
  existsb (fun e => match e with
                    | Spawned (Some m) => N.eqb m n
                    | _ => false
                    end) log
  && negb (existsb (fun e => match e with
                             | Terminated m => N.eqb m n
                             | _ => false
                             end) log).

Definition os : Os :=
  {| Pid := N;
     pid_of_text := parsePid;
     pid_truthy := fun n => negb (N.eqb n 0);
     pid_text := showPid;
     probe_alive := fun tr log n => spawnedAndNotKilled log n;
     send_term := fun tr log n =>
       if spawnedAndNotKilled log n then None
       else Some (mkError "kill ESRCH");
     spawn_child := fun tr log => Some 4242%N |}.

Definition fresh : DState os :=
  {| dworld := {| disk := {| files := ∅; dirs := ∅ |}; trace := [] |};
     oslog := [] |}.

End DemoOs.

(** ** [extractJson] of the health scripts *)

(** [text.split(/\r?\n/)] *)
Fixpoint splitNewlinesAcc (cur : string) (s : string) : list string :=
  match s with
  | EmptyString => [String.rev cur]
  | String c s' =>
      if Ascii.eqb c "010" then String.rev cur :: splitNewlinesAcc EmptyString s'
      else if Ascii.eqb c "013" then
        match s' with
        | String d s'' =>
            if Ascii.eqb d "010"
            then String.rev cur :: splitNewlinesAcc EmptyString s''
            else splitNewlinesAcc (String c cur) s'
        | EmptyString => splitNewlinesAcc (String c cur) s'
        end
      else splitNewlinesAcc (String c cur) s'
  end.

Definition splitNewlines (s : string) : list string :=
  splitNewlinesAcc EmptyString s.

(** [text.lastIndexOf(c)] for a one-character string *)
Fixpoint lastIndexOfChar (c : ascii) (s : string) : option nat :=
  match s with
  | EmptyString => None
  | String d s' =>
      match lastIndexOfChar c s' with
      | Some k => Some (S k)
      | None => if Ascii.eqb d c then Some 0 else None
      end
  end.

Section ExtractJson.

Context (H : Host).

(** The [for] loop, on the lines from the last to the first. *)
Fixpoint lastJsonLine (linesBackwards : list string) : option (Json H) :=
  match linesBackwards with
  | [] => None
  | l :: earlier =>
      let line := str_trim H l in
      if negb (String.prefix "{" line) then lastJsonLine earlier
      else match json_parse H line with
           | inr j => Some j
           | inl _ => lastJsonLine earlier
           end
  end.

Definition jsonLines (text : string) : list string :=
  List.filter (fun l => Js.truthy (Some l)) (splitNewlines text).

(** What one round of the loop makes of its line: the parsed value, or
    nothing when the loop goes on to the line before. *)
Definition lineJson (l : string) : option (Json H) :=
  let line := str_trim H l in
  if negb (String.prefix "{" line) then None
  else match json_parse H line with
       | inr j => Some j
       | inl _ => None
       end.

Definition extractJson (text : string) : option (Json H) :=
  if negb (Js.truthy (Some text)) then None
  else
    match lastJsonLine (rev (jsonLines text)) with
    | Some j => Some j
    | None =>
        match lastIndexOfChar "{" text with
        | Some lastBrace =>
            match json_parse H (str_trim H (Js.sliceFrom lastBrace text)) with
            | inr j => Some j
            | inl _ => None
            end
        | None => None
        end
    end.

End ExtractJson.

(** * Properties *)

(** ** The monad *)

Lemma runs_ret {A} (a : A) w : runs (ret a) w a [] w.
Proof. split; [reflexivity | now rewrite app_nil_r]. Qed.

Lemma runs_bind {A B} (m : M A) (k : A -> M B) w a e1 w1 b e2 w2 :
  runs m w a e1 w1 -> runs (k a) w1 b e2 w2 ->
  runs (bind m k) w b (e1 ++ e2) w2.
Proof.
  intros [Hm Ht] [Hk Ht']. split.
  - unfold bind. now rewrite Hm.
  - now rewrite Ht', Ht, app_assoc.
Qed.

Lemma runs_emit e w :
  runs (emit e) w tt [e] {| disk := disk w; trace := trace w ++ [e] |}.
Proof. split; reflexivity. Qed.

Lemma runs_getWorld w : runs getWorld w w [] w.
Proof. split; [reflexivity | now rewrite app_nil_r]. Qed.

Lemma runs_eventsOf {A} (m : M A) w a evs w' :
  runs m w a evs w' -> eventsOf m w = evs.
Proof.
  intros [Hm Ht]. unfold eventsOf. rewrite Hm. simpl. rewrite Ht.
  now rewrite drop_app_length.
Qed.

Lemma truthy_Some v : Js.truthy v = true -> exists t, v = Some t.
Proof. destruct v as [t|]; [eauto | discriminate]. Qed.

(** ** Reading traces *)

Lemma execsOf_app a b : execsOf (a ++ b) = execsOf a ++ execsOf b.
Proof. apply omap_app. Qed.

Lemma sitesOf_app a b : sitesOf (a ++ b) = sitesOf a ++ sitesOf b.
Proof. unfold sitesOf. now rewrite execsOf_app, map_app. Qed.

Lemma sleepsOf_app a b : sleepsOf (a ++ b) = sleepsOf a ++ sleepsOf b.
Proof. apply omap_app. Qed.

Lemma countSites_app p a b :
  countSites p (a ++ b) = countSites p a + countSites p b.
Proof.
  unfold countSites. now rewrite sitesOf_app, List.filter_app, length_app.
Qed.

Lemma checkPassed_app k a b :
  checkPassed k (a ++ b) = checkPassed k a || checkPassed k b.
Proof. unfold checkPassed. now rewrite execsOf_app, existsb_app. Qed.

Lemma probePassed_app k a b :
  probePassed k (a ++ b) = probePassed k a || probePassed k b.
Proof. unfold probePassed. now rewrite execsOf_app, existsb_app. Qed.

Lemma silent_app k a b : silent k a -> silent k b -> silent k (a ++ b).
Proof.
  intros [Ha Ha'] [Hb Hb']. split.
  - now rewrite checkPassed_app, Ha, Hb.
  - now rewrite probePassed_app, Ha', Hb'.
Qed.

Lemma silent_unhealthy config k evs :
  silent k evs -> attemptHealthy config k evs = false.
Proof. intros [Hc _]. unfold attemptHealthy. now rewrite Hc. Qed.

Lemma attemptHealthy_app_l config k a b :
  silent k b ->
  attemptHealthy config k (a ++ b) = attemptHealthy config k a.
Proof.
  intros [Hc Hp]. unfold attemptHealthy.
  now rewrite checkPassed_app, probePassed_app, Hc, Hp, !orb_false_r.
Qed.

Lemma attemptHealthy_app_r config k a b :
  silent k a ->
  attemptHealthy config k (a ++ b) = attemptHealthy config k b.
Proof.
  intros [Hc Hp]. unfold attemptHealthy.
  now rewrite checkPassed_app, probePassed_app, Hc, Hp.
Qed.

Lemma silent_no_execs k evs : execsOf evs = [] -> silent k evs.
Proof. intros He. unfold silent, checkPassed, probePassed. now rewrite He. Qed.

Ltac unfold_passed :=
  unfold attemptHealthy, checkPassed, probePassed, checkPassedAt,
    probePassedAt in *; simpl in *.

(** ** The closures of the heartbeat cycle *)

Section HeartbeatFacts.

Context (H : Host) (config : Config) (p : Paths).
Hypothesis Hpaths : paths config = Some p.

Lemma buildCommand_runs t extra w :
  exists cmd, runs (buildCommand H (Some t) config extra) w cmd [] w.
Proof.
  unfold buildCommand. rewrite Hpaths.
  assert (Hc : exists hc, readHealthCache H w = (Returns hc, w)).
  { unfold readHealthCache.
    destruct (files (disk w) !! healthCachePath H) as [raw|]; [|eauto].
    destruct (json_parse H raw); eauto. }
  destruct Hc as [hc Hc]. eexists. split.
  - unfold bind. rewrite Hc. reflexivity.
  - now rewrite app_nil_r.
Qed.

Lemma execShell_runs site cmd dir w :
  exists res w',
    runs (execShell H site cmd dir) w res
      [EvExec site (Js.or_else dir (cwd H)) cmd res] w'.
Proof.
  unfold runs, execShell.
  destruct (spawn_shell H (trace w) (disk w) (Js.or_else dir (cwd H)) cmd)
    as [res dk].
  exists res. eexists. split; reflexivity.
Qed.

Lemma send_runs id site w :
  Js.truthy (sendCommand (hbOf config)) = true ->
  exists res evs w',
    runs (send H config id site) w tt evs w'
    /\ execsOf evs = [(site, res)] /\ sleepsOf evs = [].
Proof.
  intros Ht. destruct (truthy_Some _ Ht) as [t Hs].
  unfold send. rewrite Hs.
  destruct (buildCommand_runs t [("id", Some id)] w) as [cmd Hb].
  pose proof (runs_emit (EvLog Info ("Heartbeat send: " +:+ cmd)) w) as Hl.
  set (w1 := {| disk := disk w; trace := trace w ++ _ |}) in Hl.
  destruct (execShell_runs site cmd None w1) as (res & w2 & He).
  exists res.
  destruct (exitedZero res) eqn:Hz.
  - eexists. exists w2. split.
    + eapply runs_bind; [exact Hb|]. eapply runs_bind; [exact Hl|].
      eapply runs_bind; [exact He|]. simpl. rewrite Hz. simpl.
      apply runs_ret.
    + split; reflexivity.
  - eexists. eexists. split.
    + eapply runs_bind; [exact Hb|]. eapply runs_bind; [exact Hl|].
      eapply runs_bind; [exact He|]. simpl. rewrite Hz. simpl.
      apply runs_emit.
    + split; reflexivity.
Qed.

(** What [check] does at loop index [i]: it runs the check command, then
    the probe when the check exited 0 and the probe applies. *)
Lemma check_runs id i w :
  Js.truthy (checkCommand (hbOf config)) = true ->
  exists ok evs w' res,
    runs (check H config id i) w ok evs w'
    /\ sleepsOf evs = []
    /\ ((execsOf evs = [(Check i, res)]
         /\ (exitedZero res = false \/ probeApplies config = false)
         /\ ok = exitedZero res
         /\ (exitedZero res = true -> agentProbeEnabled config = true ->
             In (EvLog Warn
                   "agentProbe enabled but command not configured; skipping probe.")
                evs))
        \/ (exists pres,
              execsOf evs = [(Check i, res); (Probe i, pres)]
              /\ exitedZero res = true /\ probeApplies config = true
              /\ ok = exitedZero pres)).
Proof.
  intros Ht. destruct (truthy_Some _ Ht) as [t Hs].
  unfold check. rewrite Hs.
  destruct (buildCommand_runs t [("id", Some id)] w) as [cmd Hb].
  destruct (execShell_runs (Check i) cmd None w) as (res & w1 & He).
  destruct (exitedZero res) eqn:Hz.
  2:{ exists false. eexists. exists w1, res. split; [|split].
      - eapply runs_bind; [exact Hb|]. eapply runs_bind; [exact He|].
        rewrite Hz. simpl. apply runs_ret.
      - reflexivity.
      - left. rewrite Hz. repeat split; auto. discriminate. }
  destruct (agentProbeEnabled config) eqn:Hen.
  2:{ exists true. eexists. exists w1, res. split; [|split].
      - eapply runs_bind; [exact Hb|]. eapply runs_bind; [exact He|].
        rewrite Hz. simpl. apply runs_ret.
      - reflexivity.
      - left. rewrite Hz. unfold probeApplies. rewrite Hen.
        repeat split; auto. discriminate. }
  destruct (Js.truthy (agentProbeCommand config)) eqn:Hcmd.
  2:{ exists true. eexists. eexists. exists res. split; [|split].
      - eapply runs_bind; [exact Hb|]. eapply runs_bind; [exact He|].
        rewrite Hz. simpl.
        eapply runs_bind; [apply runs_emit|]. apply runs_ret.
      - reflexivity.
      - left. rewrite Hz. unfold probeApplies. rewrite Hen, Hcmd.
        repeat split; auto. intros _ _. simpl. auto. }
  destruct (truthy_Some _ Hcmd) as [pt Hpt].
  destruct (buildCommand_runs pt [("id", Some id)] w1) as [pcmd Hpb].
  pose proof (runs_emit (EvLog Info ("Agent probe: " +:+ pcmd)) w1) as Hl.
  set (w2 := {| disk := disk w1; trace := trace w1 ++ _ |}) in Hl.
  destruct (execShell_runs (Probe i) pcmd None w2) as (pres & w3 & Hpe).
  exists (exitedZero pres). eexists. exists w3, res. split; [|split].
  - eapply runs_bind; [exact Hb|]. eapply runs_bind; [exact He|].
    rewrite Hz. simpl. rewrite Hpt.
    eapply runs_bind; [exact Hpb|]. eapply runs_bind; [exact Hl|].
    eapply runs_bind; [exact Hpe|]. apply runs_ret.
  - reflexivity.
  - right. exists pres. unfold probeApplies. rewrite Hen, Hcmd.
    repeat split; auto.
Qed.

Lemma countSites_execs q evs xs :
  execsOf evs = xs -> countSites q evs = length (List.filter q (map fst xs)).
Proof. intros <-. reflexivity. Qed.

Lemma sitesOf_execs evs xs : execsOf evs = xs -> sitesOf evs = map fst xs.
Proof. intros <-. reflexivity. Qed.

Lemma silent_execs k evs xs :
  execsOf evs = xs ->
  existsb (checkPassedAt k) xs = false ->
  existsb (probePassedAt k) xs = false ->
  silent k evs.
Proof. intros <- Hc Hp. split; assumption. Qed.

(** [send], as the rest of the cycle sees it. *)
Lemma send_summary id site w :
  Js.truthy (sendCommand (hbOf config)) = true ->
  isSend site = true ->
  exists evs w',
    runs (send H config id site) w tt evs w'
    /\ sleepsOf evs = []
    /\ (forall k, silent k evs)
    /\ countSites isCheck evs = 0 /\ countSites isSend evs = 1
    /\ countSites isRestart evs = 0 /\ countSites isNotify evs = 0.
Proof.
  intros Ht Hsite.
  destruct (send_runs id site w Ht) as (res & evs & w' & Hr & He & Hs).
  exists evs, w'. split; [exact Hr|]. split; [exact Hs|].
  split; [|rewrite !(countSites_execs _ _ _ He);
           destruct site; simpl in *; try discriminate; auto].
  intros k. apply (silent_execs _ _ _ He);
    destruct site; unfold_passed; try discriminate; reflexivity.
Qed.

(** [check], as the rest of the cycle sees it. *)
Lemma check_summary id i w :
  Js.truthy (checkCommand (hbOf config)) = true ->
  exists ok evs w',
    runs (check H config id i) w ok evs w'
    /\ sleepsOf evs = []
    /\ ok = attemptHealthy config i evs
    /\ (forall k, k <> i -> silent k evs)
    /\ countSites isCheck evs = 1 /\ countSites isSend evs = 0
    /\ countSites isRestart evs = 0 /\ countSites isNotify evs = 0
    /\ (ok = true ->
        sitesOf evs
        = Check i :: (if probeApplies config then [Probe i] else [])).
Proof.
  intros Ht.
  destruct (check_runs id i w Ht)
    as (ok & evs & w' & res & Hr & Hs & Hcases).
  exists ok, evs, w'. split; [exact Hr|]. split; [exact Hs|].
  destruct Hcases as [(He & Hwhy & Hok & _) | (pres & He & Hz & Hpa & Hok)].
  - split; [|split; [|rewrite !(countSites_execs _ _ _ He),
                        (sitesOf_execs _ _ He); simpl; repeat split; auto]].
    + unfold attemptHealthy, checkPassed, probePassed. rewrite He.
      unfold_passed.
      rewrite Nat.eqb_refl, !orb_false_r. simpl. rewrite Hok.
      destruct Hwhy as [Hz | Hpa]; [now rewrite Hz|].
      rewrite Hpa. simpl. now rewrite andb_true_r.
    + intros k Hk. apply Nat.eqb_neq in Hk. rewrite Nat.eqb_sym in Hk.
      apply (silent_execs _ _ _ He); unfold_passed; [|reflexivity].
      now rewrite Hk.
    + intros Hoktrue. destruct Hwhy as [Hz | Hpa].
      * congruence.
      * now rewrite Hpa.
  - split; [|split; [|rewrite !(countSites_execs _ _ _ He),
                        (sitesOf_execs _ _ He); simpl; repeat split; auto]].
    + unfold attemptHealthy, checkPassed, probePassed. rewrite He.
      unfold_passed.
      rewrite Nat.eqb_refl, Hz, Hpa, !orb_false_r. simpl. exact Hok.
    + intros k Hk. apply Nat.eqb_neq in Hk. rewrite Nat.eqb_sym in Hk.
      apply (silent_execs _ _ _ He); unfold_passed; now rewrite Hk.
    + intros _. now rewrite Hpa.
Qed.

(** The re-send between two attempts. *)
Lemma resend_summary id n i w :
  exists evs w',
    runs (if (Z.of_nat i <? Z.of_nat n - 1)%Z
          then (if Js.truthy (sendCommand (hbOf config))
                then send H config id (Resend i) else ret tt)
          else ret tt) w tt evs w'
    /\ sleepsOf evs = []
    /\ (forall k, silent k evs)
    /\ countSites isCheck evs = 0
    /\ countSites isSend evs
       = (if (Z.of_nat i <? Z.of_nat n - 1)%Z
             && Js.truthy (sendCommand (hbOf config)) then 1 else 0)
    /\ countSites isRestart evs = 0 /\ countSites isNotify evs = 0.
Proof.
  assert (Hnone : exists evs w',
    runs (ret tt) w tt evs w' /\ sleepsOf evs = []
    /\ (forall k, silent k evs)
    /\ countSites isCheck evs = 0 /\ countSites isSend evs = 0
    /\ countSites isRestart evs = 0 /\ countSites isNotify evs = 0).
  { exists [], w. split; [apply runs_ret|].
    repeat split; reflexivity. }
  destruct (Z.of_nat i <? Z.of_nat n - 1)%Z; simpl; [|exact Hnone].
  destruct (Js.truthy (sendCommand (hbOf config))) eqn:Ht; [|exact Hnone].
  apply send_summary; [exact Ht | reflexivity].
Qed.

(** The loop from index [i] over the remaining waits. When it falls
    through, every wait was slept, every attempt was made and none was
    healthy. When the function returns from inside the loop, it does so at
    the first healthy attempt [i + j], right after its check (and probe). *)
Lemma attempts_runs id :
  Js.truthy (checkCommand (hbOf config)) = true ->
  forall rest i n w,
    n = i + length rest ->
    exists b evs w',
      runs (attempts H config id n i rest) w b evs w'
      /\ (forall k, k < i -> silent k evs)
      /\ countSites isRestart evs = 0 /\ countSites isNotify evs = 0
      /\ (if b then
            exists j,
              j < length rest
              /\ attemptHealthy config (i + j) evs = true
              /\ (forall k, k <> i + j -> attemptHealthy config k evs = false)
              /\ sleepsOf evs = map (fun s => s * 1000)%Z (take (S j) rest)
              /\ countSites isCheck evs = S j
              /\ countSites isSend evs
                 = (if Js.truthy (sendCommand (hbOf config)) then j else 0)
              /\ (exists pre,
                    sitesOf evs
                    = pre ++ Check (i + j)
                        :: (if probeApplies config
                            then [Probe (i + j)] else []))
              /\ last evs = Some replyLine
          else
            (forall k, attemptHealthy config k evs = false)
            /\ sleepsOf evs = map (fun s => s * 1000)%Z rest
            /\ countSites isCheck evs = length rest).
Proof.
  intros Ht rest. induction rest as [|wait rest' IH]; intros i n w Hn.
  - exists false, [], w. split; [apply runs_ret|].
    split; [intros; now apply silent_no_execs|].
    repeat split; reflexivity.
  - simpl attempts.
    pose proof (runs_emit (EvSleep (wait * 1000)) w) as Hsl.
    set (w1 := {| disk := disk w; trace := trace w ++ _ |}) in Hsl.
    assert (Hsil0 : forall k, silent k [EvSleep (wait * 1000)])
      by (intros; now apply silent_no_execs).
    destruct (check_summary id i w1 Ht)
      as (ok & evc & w2 & Hc & Hcs & Hok & Hcsil & Hc1 & Hc2 & Hc3 & Hc4 & Hcsites).
    destruct ok.
    + (* healthy: return from inside the loop *)
      exists true. eexists. eexists. split.
      { eapply runs_bind; [exact Hsl|]. eapply runs_bind; [exact Hc|].
        simpl. eapply runs_bind; [apply runs_emit|]. apply runs_ret. }
      assert (Hsill : forall k, silent k ([replyLine] ++ []))
        by (intros; now apply silent_no_execs).
      split.
      { intros k Hk. apply silent_app; [apply Hsil0|].
        apply silent_app; [apply Hcsil; lia | apply Hsill]. }
      rewrite !countSites_app, Hc3, Hc4.
      split; [reflexivity|]. split; [reflexivity|].
      exists 0. rewrite Nat.add_0_r.
      split; [simpl; lia|]. split.
      { rewrite attemptHealthy_app_r by apply Hsil0.
        rewrite attemptHealthy_app_l by apply Hsill. now symmetry. }
      split.
      { intros k Hk. apply silent_unhealthy.
        apply silent_app; [apply Hsil0|].
        apply silent_app; [now apply Hcsil | apply Hsill]. }
      split; [rewrite !sleepsOf_app, Hcs; reflexivity|].
      split; [rewrite Hc1; reflexivity|].
      split; [rewrite Hc2;
              destruct (Js.truthy (sendCommand (hbOf config))); reflexivity|].
      split.
      { exists []. rewrite !sitesOf_app, (Hcsites eq_refl). simpl.
        now rewrite app_nil_r. }
      rewrite app_nil_r, !app_assoc. apply last_snoc.
    + (* unhealthy: re-send when more entries remain, then go on *)
      destruct (resend_summary id n i w2)
        as (evr & w3 & Hr & Hrs & Hrsil & Hr1 & Hr2 & Hr3 & Hr4).
      destruct (IH (S i) n w3 ltac:(simpl in Hn; lia))
        as (b & evs' & w4 & Hl & Hlsil & Hl3 & Hl4 & Hend).
      exists b. eexists. exists w4. split.
      { eapply runs_bind; [exact Hsl|]. eapply runs_bind; [exact Hc|].
        simpl. eapply runs_bind; [exact Hr|]. exact Hl. }
      split.
      { intros k Hk. apply silent_app; [apply Hsil0|].
        apply silent_app; [apply Hcsil; lia|].
        apply silent_app; [apply Hrsil | apply Hlsil; lia]. }
      rewrite !countSites_app, Hc3, Hc4, Hr3, Hr4, Hl3, Hl4.
      split; [reflexivity|]. split; [reflexivity|].
      assert (Hi : attemptHealthy config i
                     ([EvSleep (wait * 1000)] ++ evc ++ evr ++ evs') = false).
      { rewrite attemptHealthy_app_r by apply Hsil0.
        rewrite attemptHealthy_app_l; [now symmetry|].
        apply silent_app; [apply Hrsil | apply Hlsil; lia]. }
      assert (Hother : forall k, k <> i ->
                attemptHealthy config k
                  ([EvSleep (wait * 1000)] ++ evc ++ evr ++ evs')
                = attemptHealthy config k evs').
      { intros k Hk. rewrite attemptHealthy_app_r by apply Hsil0.
        rewrite attemptHealthy_app_r by now apply Hcsil.
        now rewrite attemptHealthy_app_r by apply Hrsil. }
      destruct b.
      * destruct Hend as (j & Hj & Hh & Hrest & Hsleeps & Hchecks & Hsends
                          & (pre & Hsites) & Hlast).
        exists (S j). replace (i + S j) with (S i + j) by lia.
        split; [simpl; lia|].
        split; [rewrite Hother by lia; exact Hh|].
        split.
        { intros k Hk. destruct (Nat.eq_dec k i) as [->|Hki]; [exact Hi|].
          rewrite Hother by exact Hki. now apply Hrest. }
        split; [rewrite !sleepsOf_app, Hcs, Hrs, Hsleeps; reflexivity|].
        split; [rewrite Hc1, Hr1, Hchecks; reflexivity|].
        split.
        { rewrite Hc2, Hr2, Hsends.
          assert (Hlt : (Z.of_nat i <? Z.of_nat n - 1)%Z = true)
            by (apply Z.ltb_lt; simpl in Hn; lia).
          rewrite Hlt. simpl.
          destruct (Js.truthy (sendCommand (hbOf config))); reflexivity. }
        split.
        { exists (sitesOf evc ++ sitesOf evr ++ pre).
          rewrite !sitesOf_app, Hsites. simpl. now rewrite <- !app_assoc. }
        rewrite !last_app, Hlast. reflexivity.
      * destruct Hend as (Hall & Hsleeps & Hchecks).
        split.
        { intros k. destruct (Nat.eq_dec k i) as [->|Hki]; [exact Hi|].
          rewrite Hother by exact Hki. apply Hall. }
        split; [rewrite !sleepsOf_app, Hcs, Hrs, Hsleeps; reflexivity|].
        rewrite Hc1, Hr1, Hchecks. reflexivity.
Qed.

(** The first [send], when a send command is configured. *)
Lemma first_send_summary id w :
  exists evs w',
    runs (if Js.truthy (sendCommand (hbOf config))
          then send H config id SendFirst else ret tt) w tt evs w'
    /\ sleepsOf evs = []
    /\ (forall k, silent k evs)
    /\ countSites isCheck evs = 0
    /\ countSites isSend evs
       = (if Js.truthy (sendCommand (hbOf config)) then 1 else 0)
    /\ countSites isRestart evs = 0 /\ countSites isNotify evs = 0.
Proof.
  destruct (Js.truthy (sendCommand (hbOf config))) eqn:Ht.
  - apply send_summary; [exact Ht | reflexivity].
  - exists [], w. split; [apply runs_ret|]. repeat split; reflexivity.
Qed.

(** A whole cycle with a check command: it either returns at the first
    healthy attempt, or makes every attempt, restarts once and notifies
    when it is told to. *)
Lemma cycle_runs w :
  Js.truthy (checkCommand (hbOf config)) = true ->
  exists evs w',
    runs (runHeartbeatOnce H config) w tt evs w'
    /\ ((exists j,
           j < length (waitSecondsOf config)
           /\ attemptHealthy config j evs = true
           /\ (forall k, k <> j -> attemptHealthy config k evs = false)
           /\ sleepsOf evs
              = map (fun s => s * 1000)%Z (take (S j) (waitSecondsOf config))
           /\ countSites isCheck evs = S j
           /\ countSites isSend evs
              = (if Js.truthy (sendCommand (hbOf config)) then S j else 0)
           /\ countSites isRestart evs = 0
           /\ countSites isNotify evs = 0
           /\ (exists pre,
                 sitesOf evs
                 = pre ++ Check j
                     :: (if probeApplies config then [Probe j] else []))
           /\ last evs = Some replyLine)
        \/ ((forall k, attemptHealthy config k evs = false)
            /\ sleepsOf evs
               = map (fun s => s * 1000)%Z (waitSecondsOf config)
            /\ countSites isCheck evs = length (waitSecondsOf config)
            /\ countSites isRestart evs = 1
            /\ countSites isNotify evs = (if notifies config then 1 else 0)
            /\ (exists pre,
                  countSites isRestart pre = 0
                  /\ countSites isNotify pre = 0
                  /\ sitesOf evs
                     = sitesOf pre
                         ++ Restart
                            :: (if notifies config then [Notify] else [])))).
Proof.
  intros Ht. unfold runHeartbeatOnce. rewrite Ht. cbv beta iota delta [negb].
  set (id := date_now H (trace w) +:+ "-" +:+ random_token H (trace w)).
  destruct (first_send_summary id w)
    as (ev0 & w1 & H0 & H0s & H0sil & H01 & H02 & H03 & H04).
  destruct (attempts_runs id Ht (waitSecondsOf config) 0
              (length (waitSecondsOf config)) w1 eq_refl)
    as (b & evl & w2 & Hl & _ & Hl3 & Hl4 & Hend).
  destruct b.
  - (* returned from inside the loop *)
    destruct Hend as (j & Hj & Hh & Hrest & Hsleeps & Hchecks & Hsends
                      & (pre & Hsites) & Hlast).
    exists ([] ++ ev0 ++ evl ++ []), w2. split.
    { eapply runs_bind; [apply runs_getWorld|].
      eapply runs_bind; [exact H0|]. eapply runs_bind; [exact Hl|].
      apply runs_ret. }
    left. exists j. rewrite app_nil_r. simpl app.
    simpl in Hh, Hrest, Hsites.
    split; [exact Hj|].
    split; [rewrite attemptHealthy_app_r by apply H0sil; exact Hh|].
    split; [intros k Hk; rewrite attemptHealthy_app_r by apply H0sil;
            now apply Hrest|].
    split; [rewrite sleepsOf_app, H0s, Hsleeps; reflexivity|].
    rewrite !countSites_app, H01, H02, H03, H04, Hl3, Hl4, Hchecks, Hsends.
    split; [reflexivity|].
    split; [destruct (Js.truthy (sendCommand (hbOf config))); reflexivity|].
    split; [reflexivity|]. split; [reflexivity|].
    split.
    { exists (sitesOf ev0 ++ pre). rewrite sitesOf_app, Hsites.
      now rewrite <- app_assoc. }
    rewrite last_app, Hlast. reflexivity.
  - (* every attempt failed: restart, then notify *)
    destruct Hend as (Hall & Hsleeps & Hchecks).
    pose proof (runs_emit
      (EvLog Warn "Heartbeat failed after retries. Restarting gateway...") w2)
      as Hw.
    set (w3 := {| disk := disk w2; trace := trace w2 ++ _ |}) in Hw.
    destruct (buildCommand_runs (restartCommandOf config) [("id", Some id)] w3)
      as [rcmd Hrb].
    destruct (execShell_runs Restart rcmd None w3) as (rres & w4 & Hre).
    assert (Hwarn : exists evw w5,
      runs (if negb (exitedZero rres)
            then logWarn ("Restart command failed: "
                            +:+ str_trim H (stderr rres))
            else ret tt) w4 tt evw w5
      /\ execsOf evw = [] /\ sleepsOf evw = []).
    { destruct (exitedZero rres); simpl.
      - exists [], w4. split; [apply runs_ret | split; reflexivity].
      - eexists. eexists. split; [apply runs_emit | split; reflexivity]. }
    destruct Hwarn as (evw & w5 & Hwr & Hwe & Hws).
    assert (Hnot : exists evn w6,
      runs (if notifies config
            then
              let! cmd := buildCommand H (notifyCommand (hbOf config)) config
                            [("id", Some id)] in
              logInfo ("Notify restart: " +:+ cmd) >>
              let! notifyRes := execShell H Notify cmd None in
              if negb (exitedZero notifyRes)
              then logWarn ("Notify command failed: "
                              +:+ str_trim H (stderr notifyRes))
              else ret tt
            else ret tt) w5 tt evn w6
      /\ sleepsOf evn = []
      /\ (exists nres, execsOf evn
                       = if notifies config then [(Notify, nres)] else [])).
    { unfold notifies.
      destruct (notifyOnRestart (hbOf config)); simpl;
        [|exists [], w5; split; [apply runs_ret|];
          split; [reflexivity | exists rres; reflexivity]].
      destruct (Js.truthy (notifyCommand (hbOf config))) eqn:Hn;
        [|exists [], w5; split; [apply runs_ret|];
          split; [reflexivity | exists rres; reflexivity]].
      destruct (truthy_Some _ Hn) as [nt Hnt]. rewrite Hnt.
      destruct (buildCommand_runs nt [("id", Some id)] w5) as [ncmd Hnb].
      pose proof (runs_emit (EvLog Info ("Notify restart: " +:+ ncmd)) w5)
        as Hnl.
      set (w6 := {| disk := disk w5; trace := trace w5 ++ _ |}) in Hnl.
      destruct (execShell_runs Notify ncmd None w6) as (nres & w7 & Hne).
      destruct (exitedZero nres) eqn:Hz.
      - eexists. exists w7. split.
        + eapply runs_bind; [exact Hnb|]. eapply runs_bind; [exact Hnl|].
          eapply runs_bind; [exact Hne|]. rewrite Hz. apply runs_ret.
        + split; [reflexivity | exists nres; reflexivity].
      - eexists. eexists. split.
        + eapply runs_bind; [exact Hnb|]. eapply runs_bind; [exact Hnl|].
          eapply runs_bind; [exact Hne|]. rewrite Hz. apply runs_emit.
        + split; [reflexivity | exists nres; reflexivity]. }
    destruct Hnot as (evn & w6 & Hnr & Hns & nres & Hne).
    set (tail := [EvLog Warn
                    "Heartbeat failed after retries. Restarting gateway..."]
                 ++ [] ++ [EvExec Restart (Js.or_else None (cwd H)) rcmd rres]
                 ++ evw ++ evn).
    exists ([] ++ ev0 ++ evl ++ tail), w6. split.
    { eapply runs_bind; [apply runs_getWorld|].
      eapply runs_bind; [exact H0|]. eapply runs_bind; [exact Hl|].
      eapply runs_bind; [exact Hw|]. eapply runs_bind; [exact Hrb|].
      eapply runs_bind; [exact Hre|]. eapply runs_bind; [exact Hwr|].
      exact Hnr. }
    right. simpl app.
    assert (Htaile : execsOf tail
                     = (Restart, rres)
                         :: (if notifies config then [(Notify, nres)] else [])).
    { unfold tail. rewrite !execsOf_app, Hwe, Hne. reflexivity. }
    assert (Htails : sleepsOf tail = []).
    { unfold tail. rewrite !sleepsOf_app, Hws, Hns. reflexivity. }
    assert (Htailsil : forall k, silent k tail).
    { intros k. apply (silent_execs _ _ _ Htaile);
        destruct (notifies config); reflexivity. }
    split.
    { intros k. rewrite attemptHealthy_app_r by apply H0sil.
      rewrite attemptHealthy_app_l by apply Htailsil. apply Hall. }
    split; [rewrite !sleepsOf_app, H0s, Hsleeps, Htails;
            now rewrite app_nil_r|].
    rewrite !countSites_app, H01, H03, H04, Hl3, Hl4, Hchecks,
      !(countSites_execs _ _ _ Htaile).
    split; [destruct (notifies config); simpl; lia|].
    split; [destruct (notifies config); reflexivity|].
    split; [destruct (notifies config); reflexivity|].
    exists (ev0 ++ evl).
    rewrite !countSites_app, H03, H04, Hl3, Hl4.
    split; [reflexivity|]. split; [reflexivity|].
    rewrite app_assoc, sitesOf_app. f_equal.
    rewrite (sitesOf_execs _ _ Htaile). now destruct (notifies config).
Qed.

End HeartbeatFacts.

(** ** The heartbeat cycle: claims *)

(** C1. In a cycle whose attempts all fail (no attempt is recorded healthy:
    its check did not exit 0, or the probe applies and did not exit 0), the
    check command is run once per entry of the wait sequence, whatever its
    length, and the restart command is run exactly once. When
    [notifyOnRestart] is on and a notify command is configured, the notify
    command is run exactly once, as the last subprocess, right after the
    restart; nothing is assumed on the exit code of the restart. The
    configuration must have its [paths] object, without which no command
    can be built. *)
Theorem failing_cycle_restarts_once (H : Host) (config : Config) (p : Paths)
    (w : World) :
  paths config = Some p ->
  Js.truthy (checkCommand (hbOf config)) = true ->
  (forall i, i < length (waitSecondsOf config) ->
     attemptHealthy config i (eventsOf (runHeartbeatOnce H config) w) = false) ->
  let evs := eventsOf (runHeartbeatOnce H config) w in
  fst (runHeartbeatOnce H config w) = Returns tt
  /\ countSites isCheck evs = length (waitSecondsOf config)
  /\ countSites isRestart evs = 1
  /\ (notifies config = true ->
      countSites isNotify evs = 1
      /\ exists pre,
           countSites isRestart pre = 0 /\ countSites isNotify pre = 0
           /\ sitesOf evs = sitesOf pre ++ [Restart; Notify])
  /\ (notifies config = false -> countSites isNotify evs = 0).
Proof.
  intros Hp Ht Hfail. cbv zeta.
  destruct (cycle_runs H config p Hp w Ht) as (evs & w' & Hr & Hcases).
  rewrite (runs_eventsOf _ _ _ _ _ Hr) in *. destruct Hr as [Hr _].
  destruct Hcases as [(j & Hj & Hh & _) | (_ & _ & Hc & Hre & Hn & Hpre)].
  - rewrite (Hfail j Hj) in Hh. discriminate.
  - rewrite Hr. repeat split; auto.
    + rewrite Hn. now destruct (notifies config).
    + destruct Hpre as (pre & H1 & H2 & Hs). exists pre.
      destruct (notifies config); [auto | discriminate].
    + intros Hno. rewrite Hn, Hno. reflexivity.
Qed.

(** C2. If attempt [i] of a cycle is healthy (its check exited 0 and, when
    the probe applies, so did its probe), the cycle ends there: the waits
    slept are the first [i + 1] entries and no more, the check command was
    run [i + 1] times, the send command once before each of these attempts
    when it is configured, the last subprocess is the check (or probe) of
    attempt [i], only the reply line is logged after it, and neither the
    restart nor the notify command is run. *)
Theorem healthy_attempt_ends_cycle (H : Host) (config : Config) (p : Paths)
    (w : World) (i : nat) :
  paths config = Some p ->
  Js.truthy (checkCommand (hbOf config)) = true ->
  attemptHealthy config i (eventsOf (runHeartbeatOnce H config) w) = true ->
  let evs := eventsOf (runHeartbeatOnce H config) w in
  fst (runHeartbeatOnce H config w) = Returns tt
  /\ i < length (waitSecondsOf config)
  /\ sleepsOf evs
     = map (fun s => s * 1000)%Z (take (S i) (waitSecondsOf config))
  /\ countSites isCheck evs = S i
  /\ countSites isSend evs
     = (if Js.truthy (sendCommand (hbOf config)) then S i else 0)
  /\ countSites isRestart evs = 0
  /\ countSites isNotify evs = 0
  /\ (exists pre,
        sitesOf evs
        = pre ++ Check i :: (if probeApplies config then [Probe i] else []))
  /\ last evs = Some replyLine.
Proof.
  intros Hp Ht Hi. cbv zeta.
  destruct (cycle_runs H config p Hp w Ht) as (evs & w' & Hr & Hcases).
  rewrite (runs_eventsOf _ _ _ _ _ Hr) in *. destruct Hr as [Hr _].
  rewrite Hr.
  destruct Hcases as [(j & Hj & Hh & Hrest & Hfacts) | (Hall & _)].
  - destruct (Nat.eq_dec i j) as [->|Hne].
    + split; [reflexivity|]. split; [exact Hj|]. exact Hfacts.
    + rewrite (Hrest i Hne) in Hi. discriminate.
  - rewrite Hall in Hi. discriminate.
Qed.

(** C3. One attempt, at any loop index and in any world: the check command
    runs first; the probe command runs exactly when the check exited 0 and
    the probe is enabled and has a command; the attempt is declared healthy
    iff the check exited 0 and, when the probe applies, the probe exited 0
    too; with the probe enabled but without a probe command, the verdict is
    the check's alone, no probe runs and a successful check logs the
    warning. *)
Theorem attempt_verdict (H : Host) (config : Config) (p : Paths)
    (id : string) (i : nat) (w : World) :
  paths config = Some p ->
  Js.truthy (checkCommand (hbOf config)) = true ->
  exists ok res,
    let evs := eventsOf (check H config id i) w in
    fst (check H config id i w) = Returns ok
    /\ head (execsOf evs) = Some (Check i, res)
    /\ (In (Probe i) (sitesOf evs)
        <-> exitedZero res = true /\ agentProbeEnabled config = true
            /\ Js.truthy (agentProbeCommand config) = true)
    /\ (ok = true
        <-> exitedZero res = true
            /\ (probeApplies config = true -> probePassed i evs = true))
    /\ (agentProbeEnabled config = true ->
        Js.truthy (agentProbeCommand config) = false ->
        ok = exitedZero res
        /\ (exitedZero res = true ->
            In (EvLog Warn
                  "agentProbe enabled but command not configured; skipping probe.")
               evs)).
Proof.
  intros Hp Ht.
  destruct (check_runs H config p Hp id i w Ht)
    as (ok & evs & w' & res & Hr & _ & Hcases).
  exists ok, res. cbv zeta.
  rewrite (runs_eventsOf _ _ _ _ _ Hr). destruct Hr as [Hr _]. rewrite Hr.
  split; [reflexivity|].
  destruct Hcases as [(He & Hwhy & Hok & Hwarn) | (pres & He & Hz & Hpa & Hok)].
  - rewrite (sitesOf_execs _ _ He). unfold probePassed. rewrite He.
    split; [reflexivity|]. split; [|split].
    + split.
      * simpl. intros [Hx | []]. discriminate.
      * intros (Hz & Hen & Hc). unfold probeApplies in Hwhy.
        rewrite Hz, Hen, Hc in Hwhy. destruct Hwhy; discriminate.
    + subst ok. split.
      * intros Hz. split; [exact Hz|]. intros Hpa.
        destruct Hwhy; congruence.
      * intros [Hz _]. exact Hz.
    + intros Hen Hc. split; [exact Hok|]. intros Hz. now apply Hwarn.
  - rewrite (sitesOf_execs _ _ He). unfold probePassed. rewrite He.
    split; [reflexivity|]. split; [|split].
    + split.
      * intros _. apply andb_prop in Hpa. destruct Hpa. auto.
      * intros _. simpl. auto.
    + subst ok. unfold_passed. rewrite Nat.eqb_refl, orb_false_r. simpl.
      split; [intros Hx; auto | intros [_ Hx]; auto].
    + intros Hen Hc. unfold probeApplies in Hpa. rewrite Hen, Hc in Hpa.
      discriminate.
Qed.

(** C10. Without a check command the cycle only logs one warning: no
    sleep, no subprocess, and the disk is the same. *)
Theorem no_check_command_is_noop (H : Host) (config : Config) (w : World) :
  Js.truthy (checkCommand (hbOf config)) = false ->
  runHeartbeatOnce H config w
  = (Returns tt,
     {| disk := disk w;
        trace := trace w
          ++ [EvLog Warn
                "Heartbeat checkCommand not configured. Skipping heartbeat."] |})
  /\ sleepsOf (eventsOf (runHeartbeatOnce H config) w) = []
  /\ execsOf (eventsOf (runHeartbeatOnce H config) w) = [].
Proof.
  intros Ht.
  assert (Hr : runs (runHeartbeatOnce H config) w tt
                 [EvLog Warn
                    "Heartbeat checkCommand not configured. Skipping heartbeat."]
                 {| disk := disk w;
                    trace := trace w
                      ++ [EvLog Warn
                            "Heartbeat checkCommand not configured. Skipping heartbeat."] |}).
  { unfold runHeartbeatOnce. rewrite Ht. apply runs_emit. }
  rewrite (runs_eventsOf _ _ _ _ _ Hr). destruct Hr as [Hr _].
  rewrite Hr. repeat split; reflexivity.
Qed.

Lemma failing_cycle_restarts_once_witness :
  (paths Demo.config = Some Demo.thePaths
   /\ Js.truthy (checkCommand (hbOf Demo.config)) = true
   /\ forall i, i < 3 ->
        attemptHealthy Demo.config i
          (eventsOf (runHeartbeatOnce (Demo.host Demo.shellDown) Demo.config)
             (Demo.world "{}" "{}")) = false)
  /\ countSites isCheck
       (eventsOf (runHeartbeatOnce (Demo.host Demo.shellDown) Demo.config)
          (Demo.world "{}" "{}")) = 3
  /\ countSites isRestart
       (eventsOf (runHeartbeatOnce (Demo.host Demo.shellDown) Demo.config)
          (Demo.world "{}" "{}")) = 1
  /\ countSites isNotify
       (eventsOf (runHeartbeatOnce (Demo.host Demo.shellDown) Demo.config)
          (Demo.world "{}" "{}")) = 1.
Proof.
  assert (Hfail : forall i, i < 3 ->
            attemptHealthy Demo.config i
              (eventsOf (runHeartbeatOnce (Demo.host Demo.shellDown) Demo.config)
                 (Demo.world "{}" "{}")) = false).
  { intros i Hi. destruct i as [|[|[|i]]]; [vm_compute; reflexivity ..|lia]. }
  split; [split; [reflexivity | split; [reflexivity | exact Hfail]]|].
  destruct (failing_cycle_restarts_once (Demo.host Demo.shellDown) Demo.config
              Demo.thePaths (Demo.world "{}" "{}") eq_refl eq_refl Hfail)
    as (_ & Hc & Hr & Hn & _).
  split; [exact Hc|]. split; [exact Hr|]. apply Hn. reflexivity.
Defined.

Lemma healthy_attempt_ends_cycle_witness :
  (paths Demo.config = Some Demo.thePaths
   /\ Js.truthy (checkCommand (hbOf Demo.config)) = true
   /\ attemptHealthy Demo.config 1
        (eventsOf (runHeartbeatOnce (Demo.host Demo.shellUpLate) Demo.config)
           (Demo.world "{}" "{}")) = true)
  /\ sleepsOf
       (eventsOf (runHeartbeatOnce (Demo.host Demo.shellUpLate) Demo.config)
          (Demo.world "{}" "{}")) = [30000; 40000]%Z
  /\ countSites isCheck
       (eventsOf (runHeartbeatOnce (Demo.host Demo.shellUpLate) Demo.config)
          (Demo.world "{}" "{}")) = 2
  /\ countSites isRestart
       (eventsOf (runHeartbeatOnce (Demo.host Demo.shellUpLate) Demo.config)
          (Demo.world "{}" "{}")) = 0
  /\ countSites isNotify
       (eventsOf (runHeartbeatOnce (Demo.host Demo.shellUpLate) Demo.config)
          (Demo.world "{}" "{}")) = 0.
Proof.
  assert (Hok : attemptHealthy Demo.config 1
            (eventsOf (runHeartbeatOnce (Demo.host Demo.shellUpLate) Demo.config)
               (Demo.world "{}" "{}")) = true) by (vm_compute; reflexivity).
  split; [split; [reflexivity | split; [reflexivity | exact Hok]]|].
  destruct (healthy_attempt_ends_cycle (Demo.host Demo.shellUpLate)
              Demo.config Demo.thePaths (Demo.world "{}" "{}") 1
              eq_refl eq_refl Hok)
    as (_ & _ & Hs & Hc & _ & Hr & Hn & _).
  split; [exact Hs|]. split; [exact Hc|]. split; [exact Hr | exact Hn].
Defined.

Lemma attempt_verdict_witness :
  (paths Demo.config = Some Demo.thePaths
   /\ Js.truthy (checkCommand (hbOf Demo.config)) = true)
  /\ exists ok res,
       fst (check (Demo.host Demo.shellClean) Demo.config "1-a" 0
              (Demo.world "{}" "{}")) = Returns ok
       /\ (ok = true
           <-> exitedZero res = true
               /\ (probeApplies Demo.config = true ->
                   probePassed 0
                     (eventsOf (check (Demo.host Demo.shellClean) Demo.config
                                  "1-a" 0) (Demo.world "{}" "{}")) = true)).
Proof.
  split; [split; reflexivity|].
  destruct (attempt_verdict (Demo.host Demo.shellClean) Demo.config
              Demo.thePaths "1-a" 0 (Demo.world "{}" "{}") eq_refl eq_refl)
    as (ok & res & Hr & _ & _ & Hv & _).
  exists ok, res. split; [exact Hr | exact Hv].
Defined.

Lemma no_check_command_is_noop_witness :
  Js.truthy (checkCommand (hbOf Demo.configNoCheck)) = false
  /\ sleepsOf (eventsOf (runHeartbeatOnce (Demo.host Demo.shellDown)
                           Demo.configNoCheck) (Demo.world "{}" "{}")) = []
  /\ execsOf (eventsOf (runHeartbeatOnce (Demo.host Demo.shellDown)
                          Demo.configNoCheck) (Demo.world "{}" "{}")) = [].
Proof.
  split; [reflexivity|].
  destruct (no_check_command_is_noop (Demo.host Demo.shellDown)
              Demo.configNoCheck (Demo.world "{}" "{}") eq_refl)
    as (_ & Hs & He).
  split; [exact Hs | exact He].
Defined.

(** ** Validation and push *)

Section SyncFacts.

Context (H : Host) (config : Config) (p : Paths).
Hypothesis Hpaths : paths config = Some p.

Lemma readFile_some q raw w :
  files (disk w) !! q = Some raw -> readFile (Some q) w = (Returns raw, w).
Proof. intros Hq. unfold readFile, bind, needPath, ret. now rewrite Hq. Qed.

Lemma existsSync_file q raw w :
  files (disk w) !! q = Some raw -> existsSync w (Some q) = true.
Proof.
  intros Hq. unfold existsSync. rewrite Hq.
  rewrite bool_decide_eq_true_2; [reflexivity | eauto].
Qed.

(** [loadSchema] only reads. *)
Lemma loadSchema_disk sp w :
  disk (snd (loadSchema H sp w)) = disk w.
Proof.
  unfold loadSchema, bind, emit, getWorld, throw, ret. simpl.
  destruct (negb _); [reflexivity|].
  unfold readFile, bind, needPath, throw, ret.
  destruct sp as [q|]; [|reflexivity]. simpl.
  destruct (files (disk w) !! q) as [raw|]; [|reflexivity].
  destruct (json_parse H raw); reflexivity.
Qed.

(** [validateConfig] only reads: the disk is the same afterwards, whether
    it returns or throws. *)
Lemma validateConfig_disk w :
  disk (snd (validateConfig H config w)) = disk w.
Proof.
  unfold validateConfig, withPaths. rewrite Hpaths.
  unfold bind at 1.
  destruct (readFile (resolvePathWithBase H (repoConfig p)
                        (configDirOf H config)) w) as [[raw|e] w1] eqn:Hr.
  2:{ unfold readFile, bind, needPath, throw, ret in Hr.
      destruct (resolvePathWithBase H (repoConfig p) (configDirOf H config))
        as [q|]; [|now inversion Hr].
      destruct (files (disk w) !! q); now inversion Hr. }
  assert (Hw : w1 = w).
  { unfold readFile, bind, needPath, throw, ret in Hr.
    destruct (resolvePathWithBase H (repoConfig p) (configDirOf H config))
      as [q|]; [|now inversion Hr].
    destruct (files (disk w) !! q); now inversion Hr. }
  subst w1.
  destruct (json_parse H raw) as [err|json]; [reflexivity|].
  unfold bind at 1.
  pose proof (loadSchema_disk
                (resolvePathWithBase H (schemaFile p) (configDirOf H config)) w)
    as Hl.
  destruct (loadSchema H _ w) as [[schema|e] w2]; [|exact Hl].
  simpl in Hl.
  destruct (ajv_compile H schema) as [err|validate]; [exact Hl|].
  unfold bind, emit. simpl.
  destruct (validate json) as [ok errs]. destruct ok; simpl; exact Hl.
Qed.

(** A document that violates the schema: what [validateConfig] throws. *)
Lemma validateConfig_violation rp raw json sp sraw schema validate errs w :
  resolvePathWithBase H (repoConfig p) (configDirOf H config) = Some rp ->
  files (disk w) !! rp = Some raw ->
  json_parse H raw = inr json ->
  resolvePathWithBase H (schemaFile p) (configDirOf H config) = Some sp ->
  files (disk w) !! sp = Some sraw ->
  json_parse H sraw = inr schema ->
  ajv_compile H schema = inr validate ->
  validate json = (false, errs) ->
  validateConfig H config w
  = (Throws (mkError ("Schema validation failed:" +:+ newline
                        +:+ Js.join newline
                              (map formatAjvError (Js.coalesce errs [])))),
     {| disk := disk w;
        trace := trace w ++ [EvSchemaLoaded sp] ++ [EvSchemaChecked] |}).
Proof.
  intros Hrp Hraw Hjson Hsp Hsraw Hschema Hajv Hval.
  unfold validateConfig, withPaths. rewrite Hpaths, Hrp, Hsp.
  unfold bind at 1. rewrite (readFile_some _ _ _ Hraw), Hjson.
  unfold bind at 1.
  assert (Hl : loadSchema H (Some sp) w
               = (Returns schema,
                  {| disk := disk w;
                     trace := trace w ++ [EvSchemaLoaded sp] |})).
  { unfold loadSchema, bind, emit, getWorld.
    cbv beta iota zeta. change (Js.toStr (Some sp)) with sp.
    set (w1 := {| disk := disk w; trace := trace w ++ [EvSchemaLoaded sp] |}).
    assert (Hs1 : files (disk w1) !! sp = Some sraw) by exact Hsraw.
    rewrite (existsSync_file _ _ _ Hs1). cbv beta iota delta [negb].
    rewrite (readFile_some _ _ _ Hs1), Hschema. reflexivity. }
  rewrite Hl, Hajv. unfold bind, emit, throw. simpl. rewrite Hval. simpl.
  now rewrite <- app_assoc.
Qed.

(** [syncPush] stops where [validateConfig] throws, whatever the error. *)
Lemma syncPush_stops e w w1 :
  validateConfig H config w = (Throws e, w1) ->
  syncPush H config w = (Throws e, w1).
Proof.
  intros Hv. unfold syncPush, withPaths. rewrite Hpaths.
  unfold validateConfig, withPaths in Hv. rewrite Hpaths in Hv.
  destruct (resolvePathWithBase H (repoConfig p) (configDirOf H config))
    as [rp|] eqn:Hrp.
  - unfold bind at 1. unfold dirnameOf, bind at 1, needPath, ret.
    unfold bind at 1. unfold validateConfig, withPaths.
    rewrite Hpaths, Hrp, Hv. reflexivity.
  - unfold readFile, bind, needPath, throw in Hv. inversion Hv; subst.
    reflexivity.
Qed.


End SyncFacts.

(** C4. A push of a managed copy that parses but violates the schema throws
    the aggregated validation error and leaves the disk as it was: every
    file, the live configuration among them, keeps its content. The trace
    only grows by the schema load and the schema check; the copy to the
    live location and the commit are never reached. *)
Theorem push_invalid_keeps_live (H : Host) (config : Config) (p : Paths)
    (rp raw sp sraw : string) (json schema : Json H)
    (validate : Json H -> bool * option (list AjvError))
    (errs : option (list AjvError)) (w : World) :
  paths config = Some p ->
  resolvePathWithBase H (repoConfig p) (configDirOf H config) = Some rp ->
  files (disk w) !! rp = Some raw ->
  json_parse H raw = inr json ->
  resolvePathWithBase H (schemaFile p) (configDirOf H config) = Some sp ->
  files (disk w) !! sp = Some sraw ->
  json_parse H sraw = inr schema ->
  ajv_compile H schema = inr validate ->
  validate json = (false, errs) ->
  exists w',
    syncPush H config w
    = (Throws (mkError ("Schema validation failed:" +:+ newline
                          +:+ Js.join newline
                                (map formatAjvError (Js.coalesce errs [])))),
       w')
    /\ disk w' = disk w
    /\ (forall q, files (disk w') !! q = files (disk w) !! q)
    /\ trace w' = trace w ++ [EvSchemaLoaded sp; EvSchemaChecked].
Proof.
  intros Hp Hrp Hraw Hjson Hsp Hsraw Hschema Hajv Hval.
  pose proof (validateConfig_violation H config p Hp _ _ _ _ _ _ _ _ w
                Hrp Hraw Hjson Hsp Hsraw Hschema Hajv Hval) as Hv.
  eexists. split; [exact (syncPush_stops H config p Hp _ _ _ Hv)|].
  repeat split; reflexivity.
Qed.

Lemma push_invalid_keeps_live_witness :
  exists w',
    fst (syncPush (Demo.host Demo.shellClean) Demo.config
           (Demo.world "{x}" "{old}"))
    = Throws (mkError ("Schema validation failed:" +:+ newline
                         +:+ Js.join newline
                               (map formatAjvError Demo.twoErrors)))
    /\ snd (syncPush (Demo.host Demo.shellClean) Demo.config
              (Demo.world "{x}" "{old}")) = w'
    /\ files (disk w') !! "/home/op/.openclaw/openclaw.json" = Some "{old}".
Proof.
  destruct (push_invalid_keeps_live (Demo.host Demo.shellClean) Demo.config
              Demo.thePaths
              "/srv/warden/config/openclaw.json" "{x}"
              "/srv/warden/state/schema.json" "{}" "{x}" "{}"
              (fun json => if String.eqb json "{}" then (true, None)
                           else (false, Some Demo.twoErrors))
              (Some Demo.twoErrors) (Demo.world "{x}" "{old}")
              eq_refl eq_refl eq_refl eq_refl eq_refl eq_refl eq_refl eq_refl
              eq_refl)
    as (w' & Hpush & _ & Hfiles & _).
  exists w'. rewrite Hpush. split; [reflexivity|]. split; [reflexivity|].
  rewrite Hfiles. reflexivity.
Defined.

(** C5. With a readable managed copy, [validateConfig] fails in two
    different ways. When the text does not parse, it throws the
    "Invalid JSON" error in the world it started in: the schema was not
    loaded and no schema check ran, whatever the state of the schema file.
    When the text parses and the validator rejects it, the message is the
    "Schema validation failed" header followed by one line per entry of
    [validate.errors], in order; a line holds the instance path (the schema
    path when the instance path is empty) and the message of its entry. The
    two messages are never equal. *)
Theorem validate_failures (H : Host) (config : Config) (p : Paths)
    (rp raw : string) (w : World) :
  paths config = Some p ->
  resolvePathWithBase H (repoConfig p) (configDirOf H config) = Some rp ->
  files (disk w) !! rp = Some raw ->
  (forall err, json_parse H raw = inl err ->
     validateConfig H config w
     = (Throws (mkError ("Invalid JSON: " +:+ errorText err)), w))
  /\ (forall json sp sraw schema validate errs,
        json_parse H raw = inr json ->
        resolvePathWithBase H (schemaFile p) (configDirOf H config) = Some sp ->
        files (disk w) !! sp = Some sraw ->
        json_parse H sraw = inr schema ->
        ajv_compile H schema = inr validate ->
        validate json = (false, errs) ->
        exists lines,
          validateConfig H config w
          = (Throws (mkError ("Schema validation failed:" +:+ newline
                                +:+ Js.join newline lines)),
             {| disk := disk w;
                trace := trace w ++ [EvSchemaLoaded sp; EvSchemaChecked] |})
          /\ Forall2
               (fun e line =>
                  line = "- "
                    +:+ (if Js.truthy (instancePath e)
                         then Js.toStr (instancePath e)
                         else Js.or_else (schemaPath e) "")
                    +:+ " " +:+ Js.or_else (ajv_message e) "invalid")
               (Js.coalesce errs []) lines)
  /\ (forall a b,
        message (mkError ("Invalid JSON: " +:+ a))
        <> message (mkError ("Schema validation failed:" +:+ b))).
Proof.
  intros Hp Hrp Hraw. split; [|split].
  - intros err Herr. unfold validateConfig, withPaths. rewrite Hp, Hrp.
    unfold bind. rewrite (readFile_some _ _ _ Hraw), Herr. reflexivity.
  - intros json sp sraw schema validate errs Hjson Hsp Hsraw Hschema Hajv Hval.
    exists (map formatAjvError (Js.coalesce errs [])). split.
    + exact (validateConfig_violation H config p Hp _ _ _ _ _ _ _ _ w
               Hrp Hraw Hjson Hsp Hsraw Hschema Hajv Hval).
    + induction (Js.coalesce errs []) as [|e es IH]; simpl;
        constructor; [reflexivity | exact IH].
  - intros a b. simpl. discriminate.
Qed.

Lemma validate_failures_witness :
  fst (validateConfig (Demo.host Demo.shellClean) Demo.config
         (Demo.world "oops" "{old}"))
  = Throws (mkError "Invalid JSON: Unexpected token in JSON")
  /\ trace (snd (validateConfig (Demo.host Demo.shellClean) Demo.config
                   (Demo.world "oops" "{old}"))) = [].
Proof.
  destruct (validate_failures (Demo.host Demo.shellClean) Demo.config
              Demo.thePaths "/srv/warden/config/openclaw.json" "oops"
              (Demo.world "oops" "{old}") eq_refl eq_refl eq_refl)
    as (Hbad & _ & _).
  rewrite (Hbad Demo.syntaxError eq_refl). split; reflexivity.
Defined.

(** ** The timer loop *)

Lemma loopRun_snoc evs e : loopRun (evs ++ [e]) = loopStep (loopRun evs) e.
Proof. unfold loopRun. now rewrite fold_left_app. Qed.

Lemma loop_invariant evs :
  inFlight (loopRun evs) <= 1
  /\ (running (loopRun evs) = true <-> inFlight (loopRun evs) = 1).
Proof.
  induction evs as [|e evs IH] using rev_ind.
  - simpl. split; [lia | split; discriminate].
  - rewrite loopRun_snoc. destruct IH as [Hle Hiff].
    destruct (loopRun evs) as [r n s]. simpl in *.
    destruct e; simpl.
    + unfold tickEnter. simpl. destruct r; simpl.
      * split; [exact Hle | exact Hiff].
      * assert (n = 0).
        { destruct n as [|[|n]]; [reflexivity | | lia].
          destruct Hiff as [_ Hx]. discriminate (Hx eq_refl). }
        subst n. split; [lia | split; reflexivity].
    + destruct n as [|n]; simpl.
      * split; [exact Hle | exact Hiff].
      * split; [lia | split; [discriminate | lia]].
Qed.

(** C8. Whatever the order in which the timer fires and cycles settle: at
    most one cycle is in flight, and [running] is set exactly when one is;
    a tick that fires while a cycle is running leaves the state of the
    loop as it is (it starts nothing and is not recorded anywhere), so the
    rest of the schedule runs as if that tick had never fired. *)
Theorem one_cycle_at_a_time (evs : list LoopEvent) :
  inFlight (loopRun evs) <= 1
  /\ (running (loopRun evs) = true <-> inFlight (loopRun evs) = 1)
  /\ (running (loopRun evs) = true ->
      loopStep (loopRun evs) TimerFires = loopRun evs
      /\ forall later,
           loopRun (evs ++ TimerFires :: later) = loopRun (evs ++ later))
  /\ (running (loopRun evs) = false ->
      inFlight (loopStep (loopRun evs) TimerFires) = 1
      /\ started (loopStep (loopRun evs) TimerFires)
         = S (started (loopRun evs))).
Proof.
  destruct (loop_invariant evs) as [Hle Hiff].
  split; [exact Hle|]. split; [exact Hiff|]. split.
  - intros Hrun.
    assert (Hskip : loopStep (loopRun evs) TimerFires = loopRun evs).
    { simpl. unfold tickEnter. now rewrite Hrun. }
    split; [exact Hskip|]. intros later.
    unfold loopRun in *. rewrite !fold_left_app. simpl fold_left at 1.
    simpl in Hskip. now rewrite Hskip.
  - intros Hrun. simpl. unfold tickEnter. rewrite Hrun. simpl.
    assert (inFlight (loopRun evs) = 0); [|split; [lia | reflexivity]].
    destruct (inFlight (loopRun evs)) as [|[|n]]; [reflexivity | | lia].
    destruct Hiff as [_ Hx]. rewrite Hx in Hrun by reflexivity. discriminate.
Qed.

(** ** Errors inside the long-running modes *)

(** The debounced callback of [watchConfig] catches whatever [syncPush]
    throws: it always returns. *)
Lemma watchCallback_returns (H : Host) (config : Config) (w : World) :
  exists w', watchCallback H config w = (Returns tt, w').
Proof.
  unfold watchCallback, tryCatch.
  destruct ((syncPush H config >> logInfo "Applied config after change.") w)
    as [[[]|e] w1]; [eauto|].
  unfold logError, emit. eauto.
Qed.

(** An error thrown by the first cycle is not caught by [tick]: it reaches
    [main().catch], which logs it and ends the process with status 1. *)
Lemma cycle_error_exits (H : Host) (config : Config) (w w1 : World)
    (e : Exn) :
  runHeartbeatOnce H config w = (Throws e, w1) ->
  mainHeartbeat H config w
  = (Returns tt,
     {| disk := disk w1;
        trace := trace w1 ++ [EvLog Error (errorText e); EvExit 1] |}).
Proof.
  intros Hc.
  unfold mainHeartbeat, tryCatch, runHeartbeatLoop, bind, tickBody,
    tryFinally.
  rewrite Hc. unfold ret, logError, emit. simpl.
  now rewrite <- app_assoc.
Qed.

(** C9 fails for the heartbeat loop. A configuration without its [paths]
    object makes [buildCommand] throw inside the first cycle; [tick] has a
    [finally] and no [catch], so the error reaches [main().catch], which
    logs it and exits with status 1. *)
Theorem heartbeat_error_exits :
  mainHeartbeat (Demo.host Demo.shellDown) Demo.configNoPaths
    (Demo.world "{}" "{}")
  = (Returns tt,
     {| disk := Demo.diskOf "{}" "{}";
        trace := [ EvSleep 30000;
                   EvLog Error
                     "Cannot read properties of undefined (reading 'repoConfig')";
                   EvExit 1 ] |}).
Proof. vm_compute. reflexivity. Qed.

(** ** Commits *)

(** [gitCommitIfChanged] runs [git commit] at most once, and only after a
    [git status] that exited 0 and whose output has a line that contains
    the name of one of the files. *)
Lemma commit_only_if_mentioned (H : Host) (dir : string)
    (fileNames : list string) (msg : string) (w : World) :
  exists st evs w',
    runs (gitCommitIfChanged H dir fileNames msg) w tt evs w'
    /\ head (execsOf evs) = Some (GitStatus, st)
    /\ countSites isCommit evs <= 1
    /\ (countSites isCommit evs = 1 ->
        exitedZero st = true /\ statusMentions (stdout st) fileNames = true).
Proof.
  unfold gitCommitIfChanged.
  destruct (execShell_runs H GitStatus "git status --porcelain" (Some dir) w)
    as (st & w1 & Hst).
  exists st.
  destruct (exitedZero st) eqn:Hz.
  2:{ eexists. eexists. split.
      - eapply runs_bind; [exact Hst|]. rewrite Hz. apply runs_emit.
      - split; [reflexivity|]. split; [unfold countSites, sitesOf, execsOf; simpl; lia
               | unfold countSites, sitesOf, execsOf; simpl; discriminate]. }
  destruct (statusMentions (stdout st) fileNames) eqn:Hm.
  2:{ eexists. eexists. split.
      - eapply runs_bind; [exact Hst|]. rewrite Hz, Hm. apply runs_ret.
      - split; [reflexivity|]. split; [unfold countSites, sitesOf, execsOf; simpl; lia
               | unfold countSites, sitesOf, execsOf; simpl; discriminate]. }
  match goal with
  | |- context [execShell H GitAdd ?c (Some dir)] =>
      destruct (execShell_runs H GitAdd c (Some dir) w1) as (ad & w2 & Had)
  end.
  destruct (exitedZero ad) eqn:Hza.
  2:{ eexists. eexists. split.
      - eapply runs_bind; [exact Hst|]. rewrite Hz, Hm.
        eapply runs_bind; [exact Had|]. rewrite Hza. apply runs_emit.
      - split; [reflexivity|]. split; [unfold countSites, sitesOf, execsOf; simpl; lia
               | unfold countSites, sitesOf, execsOf; simpl; discriminate]. }
  match goal with
  | |- context [execShell H GitCommit ?c (Some dir)] =>
      destruct (execShell_runs H GitCommit c (Some dir) w2) as (cm & w3 & Hcm)
  end.
  destruct (exitedZero cm) eqn:Hzc.
  - eexists. eexists. split.
    + eapply runs_bind; [exact Hst|]. rewrite Hz, Hm.
      eapply runs_bind; [exact Had|]. rewrite Hza.
      eapply runs_bind; [exact Hcm|]. rewrite Hzc. apply runs_ret.
    + split; [reflexivity|]. split; [unfold countSites, sitesOf, execsOf; simpl; lia | auto].
  - eexists. eexists. split.
    + eapply runs_bind; [exact Hst|]. rewrite Hz, Hm.
      eapply runs_bind; [exact Had|]. rewrite Hza.
      eapply runs_bind; [exact Hcm|]. rewrite Hzc. apply runs_emit.
    + split; [reflexivity|]. split; [unfold countSites, sitesOf, execsOf; simpl; lia | auto].
Qed.

(** C6 fails when [git status] lists another path whose text contains the
    name of the managed file. Here the managed copy equals the live file
    and is not reported: the only line is the staged backup
    [openclaw.json.bak]. The push validates, writes the live file, then
    runs [git add] and [git commit], and the commit succeeds. *)
Theorem commit_without_reported_change :
  statusReports ("A  openclaw.json.bak" +:+ newline) "openclaw.json" = false
  /\ statusMentions ("A  openclaw.json.bak" +:+ newline) ["openclaw.json"]
     = true
  /\ fst (syncPush (Demo.host Demo.shellBackupStaged) Demo.config
            (Demo.world "{}" "{}")) = Returns tt
  /\ execsOf (trace (snd (syncPush (Demo.host Demo.shellBackupStaged)
                            Demo.config (Demo.world "{}" "{}"))))
     = [ (GitStatus, Demo.exited 0 ("A  openclaw.json.bak" +:+ newline));
         (GitAdd, Demo.exited 0 "");
         (GitCommit, Demo.exited 0 "") ]
  /\ files (disk (snd (syncPush (Demo.host Demo.shellBackupStaged)
                         Demo.config (Demo.world "{}" "{}"))))
       !! "/home/op/.openclaw/openclaw.json" = Some "{}".
Proof. vm_compute. repeat split; reflexivity. Qed.

(** ** Command templates *)

(** C7 fails on a value that holds a dollar pattern: [replaceAll] reads
    [$$] in the replacement text as one dollar sign, so the placeholder is
    not replaced with the value of its variable. *)
Theorem dollar_value_not_substituted :
  In ("agentId", Some "ops$$1")
    (baseVars (Demo.host Demo.shellDown) Demo.configDollar Demo.thePaths None)
  /\ fst (buildCommand (Demo.host Demo.shellDown)
            (Some "openclaw agent --agent {agentId} --deliver")
            Demo.configDollar [("id", Some "1-a")] (Demo.world "{}" "{}"))
     = Returns "openclaw agent --agent ops$1 --deliver".
Proof. vm_compute. split; [right; right; right; left|]; reflexivity. Qed.

Lemma app_cons c s t : String c s +:+ t = String c (s +:+ t).
Proof. reflexivity. Qed.

Lemma app_empty t : EmptyString +:+ t = t.
Proof. reflexivity. Qed.









Section ReplaceOne.

Context (str k v : string).



End ReplaceOne.







(** Without a health cache, a target or a fallback agent id, the four
    optional variables are the empty string. *)
Lemma missing_values_are_empty (H : Host) (config : Config) (p : Paths) :
  (match heartbeat config with
   | Some hb => target hb = None
                /\ match agentProbe hb with
                   | Some ap => fallbackAgentId ap = None
                   | None => True
                   end
   | None => True
   end) ->
  lookupVar "target" (baseVars H config p None) = Some (Some "")
  /\ lookupVar "agentId" (baseVars H config p None) = Some (Some "")
  /\ lookupVar "sessionId" (baseVars H config p None) = Some (Some "")
  /\ lookupVar "sessionKey" (baseVars H config p None) = Some (Some "").
Proof.
  intros Hm. unfold baseVars. simpl.
  destruct (heartbeat config) as [hb|]; [|repeat split; reflexivity].
  destruct Hm as [Ht Hf]. rewrite Ht.
  destruct (agentProbe hb) as [ap|]; [rewrite Hf|]; repeat split; reflexivity.
Qed.

(** ** The scenarios of the documentation, run on the small host *)

(** The check and the probe succeed at the first attempt. *)
Example scenario_first_attempt_healthy :
  sitesOf (eventsOf (runHeartbeatOnce (Demo.host Demo.shellClean) Demo.config)
             (Demo.world "{}" "{}"))
  = [Check 0; Probe 0]
  /\ sleepsOf (eventsOf (runHeartbeatOnce (Demo.host Demo.shellClean)
                           Demo.config) (Demo.world "{}" "{}"))
     = [30000]%Z.
Proof. vm_compute. split; reflexivity. Qed.

(** The check always fails. *)
Example scenario_check_always_fails :
  sitesOf (eventsOf (runHeartbeatOnce (Demo.host Demo.shellDown) Demo.config)
             (Demo.world "{}" "{}"))
  = [Check 0; Check 1; Check 2; Restart; Notify].
Proof. vm_compute. reflexivity. Qed.

(** The check always succeeds and the probe always fails. *)
Example scenario_probe_always_fails :
  sitesOf (eventsOf (runHeartbeatOnce (Demo.host Demo.shellProbeDown)
                       Demo.config) (Demo.world "{}" "{}"))
  = [Check 0; Probe 0; Check 1; Probe 1; Check 2; Probe 2; Restart; Notify].
Proof. vm_compute. reflexivity. Qed.

(** A placeholder of a variable without a value leaves nothing behind. *)
Example scenario_missing_session :
  fst (buildCommand (Demo.host Demo.shellDown)
         (Some "notify --session={sessionId} --agent={agentId} {id}")
         Demo.config [("id", Some "1-a")] (Demo.world "{}" "{}"))
  = Returns "notify --session= --agent=main 1-a".
Proof. vm_compute. reflexivity. Qed.

(** * More of the watchdog *)

(** ** The heartbeat cycle, whatever the subprocesses do *)

Lemma runs_det {A} (m : M A) w a evs w' a' evs' w'' :
  runs m w a evs w' -> runs m w a' evs' w'' ->
  a = a' /\ evs = evs' /\ w' = w''.
Proof.
  intros [Hm Ht] [Hm' Ht']. rewrite Hm in Hm'. inversion Hm'; subst.
  repeat split. rewrite Ht in Ht'. now apply app_inv_head in Ht'.
Qed.



Section HeartbeatMore.

Context (H : Host) (config : Config) (p : Paths).
Hypothesis Hpaths : paths config = Some p.

(** When the loop falls through, the send command was re-run between
    consecutive attempts and not after the last one. *)
Lemma attempts_exhausted_sends id :
  Js.truthy (checkCommand (hbOf config)) = true ->
  forall rest i n w evs w',
    n = i + length rest ->
    runs (attempts H config id n i rest) w false evs w' ->
    countSites isSend evs
    = (if Js.truthy (sendCommand (hbOf config)) then length rest - 1 else 0).
Proof.
  intros Ht rest. induction rest as [|wait rest' IH];
    intros i n w evs w' Hn Hrun.
  - destruct (runs_det _ _ _ _ _ _ _ _ Hrun (runs_ret false w))
      as (_ & -> & _).
    now destruct (Js.truthy (sendCommand (hbOf config))).
  - pose proof (runs_emit (EvSleep (wait * 1000)) w) as Hsl.
    set (w1 := {| disk := disk w; trace := trace w ++ _ |}) in Hsl.
    destruct (check_summary H config p Hpaths id i w1 Ht)
      as (ok & evc & w2 & Hc & _ & _ & _ & _ & Hc2 & _).
    destruct ok.
    + assert (Hwhole : exists evs0 w0,
                runs (attempts H config id n i (wait :: rest')) w true evs0 w0).
      { eexists. eexists. simpl attempts. eapply runs_bind; [exact Hsl|].
        eapply runs_bind; [exact Hc|]. simpl.
        eapply runs_bind; [apply runs_emit|]. apply runs_ret. }
      destruct Hwhole as (evs0 & w0 & Hwhole).
      destruct (runs_det _ _ _ _ _ _ _ _ Hrun Hwhole) as (Hx & _). discriminate.
    + destruct (resend_summary H config p Hpaths id n i w2)
        as (evr & w3 & Hr & _ & _ & _ & Hr2 & _).
      destruct (attempts_runs H config p Hpaths id Ht rest' (S i) n w3
                  ltac:(simpl in Hn; lia))
        as (b & evs' & w4 & Hl & _).
      assert (Hwhole : runs (attempts H config id n i (wait :: rest')) w b
                         ([EvSleep (wait * 1000)] ++ evc ++ evr ++ evs') w4).
      { simpl attempts. eapply runs_bind; [exact Hsl|].
        eapply runs_bind; [exact Hc|]. simpl.
        eapply runs_bind; [exact Hr|]. exact Hl. }
      destruct (runs_det _ _ _ _ _ _ _ _ Hrun Hwhole) as (<- & -> & _).
      rewrite !countSites_app, Hc2, Hr2.
      rewrite (IH (S i) n w3 evs' w4 ltac:(simpl in Hn; lia) Hl).
      assert (Hlt : (Z.of_nat i <? Z.of_nat n - 1)%Z
                    = negb (Nat.eqb (length rest') 0)).
      { simpl in Hn. destruct rest' as [|x r]; simpl in *.
        - apply Z.ltb_ge. lia.
        - apply Z.ltb_lt. lia. }
      rewrite Hlt.
      destruct (Js.truthy (sendCommand (hbOf config)));
        destruct rest' as [|x r]; simpl; try reflexivity. lia.
Qed.

(** The parts of a cycle: the first send, the loop, and what follows the
    loop when it falls through. *)
Lemma cycle_shape w :
  Js.truthy (checkCommand (hbOf config)) = true ->
  exists id ev0 w1 b evl w2 tail w',
    runs (if Js.truthy (sendCommand (hbOf config))
          then send H config id SendFirst else ret tt) w tt ev0 w1
    /\ countSites isSend ev0
       = (if Js.truthy (sendCommand (hbOf config)) then 1 else 0)
    /\ countSites isRestart ev0 = 0
    /\ runs (attempts H config id (length (waitSecondsOf config)) 0
               (waitSecondsOf config)) w1 b evl w2
    /\ runs (runHeartbeatOnce H config) w tt (ev0 ++ evl ++ tail) w'
    /\ countSites isSend tail = 0
    /\ countSites isRestart tail = (if b then 0 else 1).
Proof.
  intros Ht.
  set (id := date_now H (trace w) +:+ "-" +:+ random_token H (trace w)).
  destruct (first_send_summary H config p Hpaths id w)
    as (ev0 & w1 & H0 & _ & _ & _ & H02 & H03 & _).
  destruct (attempts_runs H config p Hpaths id Ht (waitSecondsOf config) 0
              (length (waitSecondsOf config)) w1 eq_refl)
    as (b & evl & w2 & Hl & _).
  exists id, ev0, w1, b, evl, w2.
  destruct b.
  - exists [], w2.
    split; [exact H0|]. split; [exact H02|]. split; [exact H03|].
    split; [exact Hl|]. split; [|split; reflexivity].
    unfold runHeartbeatOnce. rewrite Ht. cbv beta iota delta [negb].
    fold id. change (ev0 ++ evl ++ []) with ([] ++ ev0 ++ evl ++ []).
    eapply runs_bind; [apply runs_getWorld|].
    eapply runs_bind; [exact H0|]. eapply runs_bind; [exact Hl|].
    apply runs_ret.
  - pose proof (runs_emit
      (EvLog Warn "Heartbeat failed after retries. Restarting gateway...") w2)
      as Hw.
    set (w3 := {| disk := disk w2; trace := trace w2 ++ _ |}) in Hw.
    destruct (buildCommand_runs H config p Hpaths (restartCommandOf config)
                [("id", Some id)] w3) as [rcmd Hrb].
    destruct (execShell_runs H Restart rcmd None w3) as (rres & w4 & Hre).
    assert (Hwarn : exists evw w5,
      runs (if negb (exitedZero rres)
            then logWarn ("Restart command failed: "
                            +:+ str_trim H (stderr rres))
            else ret tt) w4 tt evw w5
      /\ execsOf evw = []).
    { destruct (exitedZero rres); simpl.
      - exists [], w4. split; [apply runs_ret | reflexivity].
      - eexists. eexists. split; [apply runs_emit | reflexivity]. }
    destruct Hwarn as (evw & w5 & Hwr & Hwe).
    assert (Hnot : exists evn w6,
      runs (if notifies config
            then
              let! cmd := buildCommand H (notifyCommand (hbOf config)) config
                            [("id", Some id)] in
              logInfo ("Notify restart: " +:+ cmd) >>
              let! notifyRes := execShell H Notify cmd None in
              if negb (exitedZero notifyRes)
              then logWarn ("Notify command failed: "
                              +:+ str_trim H (stderr notifyRes))
              else ret tt
            else ret tt) w5 tt evn w6
      /\ countSites isSend evn = 0 /\ countSites isRestart evn = 0).
    { destruct (notifies config) eqn:Hn;
        [|exists [], w5; split; [apply runs_ret | split; reflexivity]].
      unfold notifies in Hn. apply andb_prop in Hn. destruct Hn as [_ Hn].
      destruct (truthy_Some _ Hn) as [nt Hnt]. rewrite Hnt.
      destruct (buildCommand_runs H config p Hpaths nt [("id", Some id)] w5)
        as [ncmd Hnb].
      pose proof (runs_emit (EvLog Info ("Notify restart: " +:+ ncmd)) w5)
        as Hnl.
      set (w6 := {| disk := disk w5; trace := trace w5 ++ _ |}) in Hnl.
      destruct (execShell_runs H Notify ncmd None w6) as (nres & w7 & Hne).
      destruct (exitedZero nres) eqn:Hz.
      - eexists. exists w7. split.
        + eapply runs_bind; [exact Hnb|]. eapply runs_bind; [exact Hnl|].
          eapply runs_bind; [exact Hne|]. rewrite Hz. apply runs_ret.
        + split; reflexivity.
      - eexists. eexists. split.
        + eapply runs_bind; [exact Hnb|]. eapply runs_bind; [exact Hnl|].
          eapply runs_bind; [exact Hne|]. rewrite Hz. apply runs_emit.
        + split; reflexivity. }
    destruct Hnot as (evn & w6 & Hnr & Hn1 & Hn2).
    exists ([EvLog Warn
               "Heartbeat failed after retries. Restarting gateway..."]
            ++ [] ++ [EvExec Restart (Js.or_else None (cwd H)) rcmd rres]
            ++ evw ++ evn), w6.
    split; [exact H0|]. split; [exact H02|]. split; [exact H03|].
    split; [exact Hl|]. split.
    + unfold runHeartbeatOnce. rewrite Ht. cbv beta iota delta [negb].
      fold id. unfold notifies in Hnr.
      match goal with
      | |- runs _ _ _ (ev0 ++ evl ++ ?t) _ =>
          change (ev0 ++ evl ++ t) with ([] ++ ev0 ++ evl ++ t)
      end.
      eapply runs_bind; [apply runs_getWorld|].
      eapply runs_bind; [exact H0|]. eapply runs_bind; [exact Hl|].
      eapply runs_bind; [exact Hw|]. eapply runs_bind; [exact Hrb|].
      eapply runs_bind; [exact Hre|]. eapply runs_bind; [exact Hwr|].
      exact Hnr.
    + rewrite !countSites_app, Hn1, Hn2,
        !(countSites_execs _ _ _ Hwe). split; reflexivity.
Qed.

End HeartbeatMore.

(** X2. A cycle that ends in a restart slept through the whole wait
    sequence, in order, and ran the send command once before each attempt
    and not after the last one: the first send, then one re-send per
    failed attempt that is followed by another wait entry. *)
Theorem restarting_cycle_schedule (H : Host) (config : Config) (p : Paths)
    (w : World) :
  paths config = Some p ->
  Js.truthy (checkCommand (hbOf config)) = true ->
  countSites isRestart (eventsOf (runHeartbeatOnce H config) w) = 1 ->
  sleepsOf (eventsOf (runHeartbeatOnce H config) w)
  = map (fun s => s * 1000)%Z (waitSecondsOf config)
  /\ countSites isSend (eventsOf (runHeartbeatOnce H config) w)
     = (if Js.truthy (sendCommand (hbOf config))
        then 1 + (length (waitSecondsOf config) - 1) else 0).
Proof.
  intros Hp Ht Hre.
  destruct (cycle_runs H config p Hp w Ht) as (evs & w' & Hr & Hcases).
  destruct (cycle_shape H config p Hp w Ht)
    as (id & ev0 & w1 & b & evl & w2 & tail & w'' & H0 & H0s & H0r & Hl
        & Hwhole & Hts & Htr).
  destruct (runs_det _ _ _ _ _ _ _ _ Hr Hwhole) as (_ & -> & _).
  rewrite (runs_eventsOf _ _ _ _ _ Hwhole) in *.
  destruct Hcases as [(j & _ & _ & _ & _ & _ & _ & Hre0 & _)
                     | (_ & Hs & _)]; [congruence|].
  split; [exact Hs|].
  destruct b.
  - destruct (attempts_runs H config p Hp id Ht (waitSecondsOf config) 0
                (length (waitSecondsOf config)) w1 eq_refl)
      as (b' & evl' & w2' & Hl' & _ & Hl3 & _).
    destruct (runs_det _ _ _ _ _ _ _ _ Hl Hl') as (_ & <- & _).
    rewrite !countSites_app, H0r, Hl3, Htr in Hre. discriminate.
  - rewrite !countSites_app, H0s, Hts.
    rewrite (attempts_exhausted_sends H config p Hp id Ht _ 0 _ w1 evl w2
               eq_refl Hl).
    destruct (Js.truthy (sendCommand (hbOf config))); lia.
Qed.

Lemma restarting_cycle_schedule_witness :
  sleepsOf (eventsOf (runHeartbeatOnce (Demo.host Demo.shellDown) Demo.config)
              (Demo.world "{}" "{}"))
  = [30000; 40000; 50000]%Z.
Proof.
  destruct (restarting_cycle_schedule (Demo.host Demo.shellDown) Demo.config
              Demo.thePaths (Demo.world "{}" "{}"))
    as (Hs & _); [ reflexivity | reflexivity | vm_compute; reflexivity | ].
  rewrite Hs. reflexivity.
Defined.

(** ** Version control never gets in the way *)

Lemma keeps_ret {A} q (a : A) : keeps q (ret a).
Proof. intros w. reflexivity. Qed.

Lemma keeps_bind {A B} q (m : M A) (k : A -> M B) :
  keeps q m -> (forall a, keeps q (k a)) -> keeps q (bind m k).
Proof.
  intros Hm Hk w. unfold bind. specialize (Hm w).
  destruct (m w) as [[a|e] w1]; simpl in *; [|exact Hm].
  now rewrite Hk.
Qed.

Lemma keeps_emit q e : keeps q (emit e).
Proof. intros w. reflexivity. Qed.

Lemma keeps_getWorld q : keeps q getWorld.
Proof. intros w. reflexivity. Qed.

Lemma keeps_execShell H q site cmd dir :
  shellKeeps H q -> keeps q (execShell H site cmd dir).
Proof.
  intros Hq w. unfold execShell.
  specialize (Hq (trace w) (disk w) (Js.or_else dir (cwd H)) cmd).
  destruct (spawn_shell H (trace w) (disk w) (Js.or_else dir (cwd H)) cmd)
    as [res dk]. exact Hq.
Qed.

Lemma returns_ret {A} (a : A) : returns (ret a).
Proof. intros w. now exists a. Qed.

Lemma returns_bind {A B} (m : M A) (k : A -> M B) :
  returns m -> (forall a, returns (k a)) -> returns (bind m k).
Proof.
  intros Hm Hk w. unfold bind. destruct (Hm w) as [a Ha].
  destruct (m w) as [[a'|e] w1]; simpl in Ha; [|discriminate].
  apply Hk.
Qed.

Lemma returns_emit e : returns (emit e).
Proof. intros w. now exists tt. Qed.

Lemma returns_getWorld : returns getWorld.
Proof. intros w. now exists w. Qed.

Lemma returns_execShell H site cmd dir : returns (execShell H site cmd dir).
Proof.
  intros w. unfold execShell.
  destruct (spawn_shell H (trace w) (disk w) (Js.or_else dir (cwd H)) cmd)
    as [res dk]. now exists res.
Qed.

Lemma returns_tt (m : M unit) w : returns m -> fst (m w) = Returns tt.
Proof. intros Hm. destruct (Hm w) as [[] Ha]. exact Ha. Qed.

Ltac step_returns :=
  repeat first
    [ apply returns_ret | apply returns_emit | apply returns_getWorld
    | apply returns_execShell
    | apply returns_bind; [|intros ?]
    | match goal with
      | |- returns (if ?b then _ else _) => destruct b
      end ].

Ltac step_keeps Hq :=
  repeat first
    [ apply keeps_ret | apply keeps_emit | apply keeps_getWorld
    | apply (keeps_execShell _ _ _ _ _ Hq)
    | apply keeps_bind; [|intros ?]
    | match goal with
      | |- keeps _ (if ?b then _ else _) => destruct b
      end ].

Lemma ensureGitRepo_returns H repoDir autoInit :
  returns (ensureGitRepo H repoDir autoInit).
Proof. unfold ensureGitRepo, logWarn. step_returns. Qed.

Lemma gitCommitIfChanged_returns H repoDir fileNames msg :
  returns (gitCommitIfChanged H repoDir fileNames msg).
Proof. unfold gitCommitIfChanged, logWarn. step_returns. Qed.

Lemma commitManaged_returns H config repoRoot rp verb :
  returns (commitManaged H config repoRoot rp verb).
Proof.
  unfold commitManaged. destruct (git config) as [g|]; [|apply returns_ret].
  destruct (git_enabled g); [|apply returns_ret].
  apply returns_bind; [apply ensureGitRepo_returns|]. intros [|].
  - apply returns_bind; [apply returns_getWorld|]. intros w.
    apply gitCommitIfChanged_returns.
  - apply returns_ret.
Qed.

Lemma commitManaged_keeps H config repoRoot rp verb q :
  shellKeeps H q -> keeps q (commitManaged H config repoRoot rp verb).
Proof.
  intros Hq. unfold commitManaged.
  destruct (git config) as [g|]; [|apply keeps_ret].
  destruct (git_enabled g); [|apply keeps_ret].
  apply keeps_bind.
  - unfold ensureGitRepo, logWarn. step_keeps Hq.
  - intros [|]; [|apply keeps_ret].
    apply keeps_bind; [apply keeps_getWorld|]. intros w.
    unfold gitCommitIfChanged, logWarn. step_keeps Hq.
Qed.

(** X3. The commit step shared by pull, push and init never throws,
    whatever [git init], [git status], [git add] and [git commit] answer;
    with version control switched off (or not configured) it runs no
    subprocess and leaves the world as it is. *)
Theorem commit_step_never_aborts (H : Host) (config : Config)
    (repoRoot rp verb : string) (w : World) :
  fst (commitManaged H config repoRoot rp verb w) = Returns tt
  /\ (match git config with
      | Some g => git_enabled g = false
      | None => True
      end ->
      commitManaged H config repoRoot rp verb w = (Returns tt, w)).
Proof.
  split.
  - apply returns_tt, commitManaged_returns.
  - unfold commitManaged. destruct (git config) as [g|]; [|reflexivity].
    intros ->. reflexivity.
Qed.

(** X4. [gitCommitIfChanged] never throws and runs its commands in order,
    each only after the one before succeeded: [git status] always;
    [git add] only when the status exited 0 and a line of its output
    contains one of the file names; [git commit] only when [git add]
    exited 0. *)
Theorem git_steps_in_order (H : Host) (dir : string)
    (fileNames : list string) (msg : string) (w : World) :
  exists st ad cm,
    fst (gitCommitIfChanged H dir fileNames msg w) = Returns tt
    /\ execsOf (eventsOf (gitCommitIfChanged H dir fileNames msg) w)
       = (GitStatus, st)
           :: (if exitedZero st && statusMentions (stdout st) fileNames
               then (GitAdd, ad)
                      :: (if exitedZero ad then [(GitCommit, cm)] else [])
               else []).
Proof.
  unfold gitCommitIfChanged.
  destruct (execShell_runs H GitStatus "git status --porcelain" (Some dir) w)
    as (st & w1 & Hst).
  exists st.
  destruct (exitedZero st) eqn:Hz.
  2:{ exists st, st.
      assert (Hr : exists evs w', runs
        (let! status := execShell H GitStatus "git status --porcelain"
                          (Some dir) in
         if negb (exitedZero status)
         then logWarn ("git status failed: " +:+ str_trim H (stderr status))
         else ret tt) w tt evs w' /\ execsOf evs = [(GitStatus, st)]).
      { eexists. eexists. split.
        - eapply runs_bind; [exact Hst|]. rewrite Hz. apply runs_emit.
        - reflexivity. }
      destruct Hr as (evs & w' & Hr & He).
      match goal with
      | |- fst (?m w) = _ /\ _ =>
          assert (Hrun : runs m w tt evs w')
      end.
      { destruct Hr as [Hr Htr]. split; [|exact Htr].
        unfold bind in *. destruct Hst as [Hst _]. rewrite Hst in *.
        rewrite Hz in *. exact Hr. }
      rewrite (runs_eventsOf _ _ _ _ _ Hrun). destruct Hrun as [-> _].
      split; [reflexivity | exact He]. }
  destruct (statusMentions (stdout st) fileNames) eqn:Hm.
  2:{ exists st, st.
      match goal with
      | |- fst (?m w) = _ /\ _ =>
          assert (Hrun : runs m w tt
                    ([EvExec GitStatus (Js.or_else (Some dir) (cwd H))
                        "git status --porcelain" st] ++ []) w1)
      end.
      { eapply runs_bind; [exact Hst|]. rewrite Hz, Hm. apply runs_ret. }
      rewrite (runs_eventsOf _ _ _ _ _ Hrun). destruct Hrun as [-> _].
      split; reflexivity. }
  match goal with
  | |- context [execShell H GitAdd ?c (Some dir)] =>
      destruct (execShell_runs H GitAdd c (Some dir) w1) as (ad & w2 & Had)
  end.
  exists ad.
  destruct (exitedZero ad) eqn:Hza.
  2:{ exists ad.
      match goal with
      | |- fst (?m w) = _ /\ _ =>
          assert (Hrun : exists evs w', runs m w tt evs w'
                    /\ execsOf evs = [(GitStatus, st); (GitAdd, ad)])
      end.
      { eexists. eexists. split.
        - eapply runs_bind; [exact Hst|]. rewrite Hz, Hm.
          eapply runs_bind; [exact Had|]. rewrite Hza. apply runs_emit.
        - reflexivity. }
      destruct Hrun as (evs & w' & Hrun & He).
      rewrite (runs_eventsOf _ _ _ _ _ Hrun). destruct Hrun as [-> _].
      split; [reflexivity | exact He]. }
  match goal with
  | |- context [execShell H GitCommit ?c (Some dir)] =>
      destruct (execShell_runs H GitCommit c (Some dir) w2) as (cm & w3 & Hcm)
  end.
  exists cm.
  match goal with
  | |- fst (?m w) = _ /\ _ =>
      assert (Hrun : exists evs w', runs m w tt evs w'
                /\ execsOf evs
                   = [(GitStatus, st); (GitAdd, ad); (GitCommit, cm)])
  end.
  { destruct (exitedZero cm) eqn:Hzc.
    - eexists. eexists. split.
      + eapply runs_bind; [exact Hst|]. rewrite Hz, Hm.
        eapply runs_bind; [exact Had|]. rewrite Hza.
        eapply runs_bind; [exact Hcm|]. rewrite Hzc. apply runs_ret.
      + reflexivity.
    - eexists. eexists. split.
      + eapply runs_bind; [exact Hst|]. rewrite Hz, Hm.
        eapply runs_bind; [exact Had|]. rewrite Hza.
        eapply runs_bind; [exact Hcm|]. rewrite Hzc. apply runs_emit.
      + reflexivity. }
  destruct Hrun as (evs & w' & Hrun & He).
  rewrite (runs_eventsOf _ _ _ _ _ Hrun). destruct Hrun as [-> _].
  split; [reflexivity | exact He].
Qed.

(** ** Validation, copy, pull and push *)

(** X5. [validateConfig] only reads: whatever it returns or throws, and
    for every configuration, the disk is the same afterwards. *)
Theorem validate_reads_only (H : Host) (config : Config) (w : World) :
  disk (snd (validateConfig H config w)) = disk w.
Proof.
  destruct (paths config) as [p|] eqn:Hp.
  - exact (validateConfig_disk H config p Hp w).
  - unfold validateConfig, withPaths. rewrite Hp. reflexivity.
Qed.



Section CopyFacts.

Context (H : Host).


End CopyFacts.





Section PullPush.

Context (H : Host) (config : Config) (p : Paths) (rp lp : string).
Hypothesis Hpaths : paths config = Some p.
Hypothesis Hrp :
  resolvePathWithBase H (repoConfig p) (configDirOf H config) = Some rp.
Hypothesis Hlp :
  resolvePathWithBase H (liveConfig p) (configDirOf H config) = Some lp.


Lemma syncPull_missing_live w :
  existsSync w (Some lp) = false ->
  syncPull H config w
  = (Throws (mkError ("Live config not found: " +:+ lp)), w).
Proof.
  intros Hno.
  unfold syncPull, withPaths. rewrite Hpaths, Hrp, Hlp.
  unfold bind at 1. unfold dirnameOf, bind at 1, needPath, ret.
  unfold bind at 1. unfold getWorld at 1. rewrite Hno. reflexivity.
Qed.



End PullPush.




(** X10. A pull without a live file (and no directory of that name) throws
    "Live config not found" before it touches anything: no directory is
    made, no file is copied, nothing is logged and no subprocess runs. *)
Theorem pull_without_live (H : Host) (config : Config) (p : Paths)
    (rp lp : string) (w : World) :
  paths config = Some p ->
  resolvePathWithBase H (repoConfig p) (configDirOf H config) = Some rp ->
  resolvePathWithBase H (liveConfig p) (configDirOf H config) = Some lp ->
  files (disk w) !! lp = None ->
  lp ∉ dirs (disk w) ->
  syncPull H config w
  = (Throws (mkError ("Live config not found: " +:+ lp)), w).
Proof.
  intros Hp Hrp Hlp Hno Hnd.
  apply (syncPull_missing_live H config p rp lp Hp Hrp Hlp).
  unfold existsSync. rewrite Hno.
  rewrite bool_decide_eq_false_2 by (intros [x Hx]; discriminate).
  now rewrite bool_decide_eq_false_2.
Qed.

Lemma pull_without_live_witness :
  syncPull (Demo.host Demo.shellClean) Demo.config
    {| disk := {| files := ∅; dirs := ∅ |}; trace := [] |}
  = (Throws (mkError
               "Live config not found: /home/op/.openclaw/openclaw.json"),
     {| disk := {| files := ∅; dirs := ∅ |}; trace := [] |}).
Proof.
  apply (pull_without_live (Demo.host Demo.shellClean) Demo.config
           Demo.thePaths "/srv/warden/config/openclaw.json"
           "/home/op/.openclaw/openclaw.json");
    try reflexivity.
  apply not_elem_of_empty.
Defined.





(** ** Seeding the managed copy *)

Lemma existsSync_absent q w :
  files (disk w) !! q = None -> q ∉ dirs (disk w) ->
  existsSync w (Some q) = false.
Proof.
  intros Hf Hd. unfold existsSync. rewrite Hf.
  rewrite bool_decide_eq_false_2 by (intros [x Hx]; discriminate).
  now rewrite bool_decide_eq_false_2.
Qed.

(** X13. [initWarden] never overwrites a managed copy that exists; when
    there is none it seeds it from the live file, and with the text of the
    empty object when there is no live file either. It returns whatever
    git answers. Neither path may be a directory or the directory of the
    managed copy, which must not be a file; subprocesses must leave the
    managed copy alone. *)
Theorem init_seeds_managed (H : Host) (config : Config) (p : Paths)
    (rp lp : string) (w : World) :
  paths config = Some p ->
  resolvePathWithBase H (repoConfig p) (configDirOf H config) = Some rp ->
  resolvePathWithBase H (liveConfig p) (configDirOf H config) = Some lp ->
  files (disk w) !! path_dirname H rp = None ->
  rp ∉ dirs (disk w) -> lp ∉ dirs (disk w) ->
  rp <> path_dirname H rp -> lp <> path_dirname H rp ->
  shellKeeps H rp ->
  fst (initWarden H config w) = Returns tt
  /\ files (disk (snd (initWarden H config w))) !! rp
     = Some (match files (disk w) !! rp with
             | Some managed => managed
             | None =>
                 match files (disk w) !! lp with
                 | Some live => live
                 | None => "{}"
                 end
             end).
Proof.
  intros Hp Hrp Hlp Hdir Hrd Hld Hrn Hln Hkeep.
  assert (Hsteps : exists wmid,
    initWarden H config w
    = commitManaged H config (path_dirname H rp) rp "init" wmid
    /\ files (disk wmid) !! rp
       = Some (match files (disk w) !! rp with
               | Some managed => managed
               | None =>
                   match files (disk w) !! lp with
                   | Some live => live
                   | None => "{}"
                   end
               end)).
  { unfold initWarden, withPaths. rewrite Hp, Hrp, Hlp.
    unfold bind at 1. unfold dirnameOf, bind at 1, needPath, ret.
    unfold bind at 1. unfold ensureDir at 1. rewrite Hdir.
    unfold bind at 1. unfold getWorld at 1.
    set (w1 := {| disk := {| files := files (disk w);
                             dirs := {[path_dirname H rp]} ∪ dirs (disk w) |};
                  trace := trace w |}).
    assert (Hrd1 : rp ∉ dirs (disk w1)).
    { cbn. rewrite elem_of_union, elem_of_singleton. intros [Hx|Hx]; auto. }
    assert (Hld1 : lp ∉ dirs (disk w1)).
    { cbn. rewrite elem_of_union, elem_of_singleton. intros [Hx|Hx]; auto. }
    change (Js.toStr (Some rp)) with rp.
    destruct (files (disk w) !! rp) as [managed|] eqn:Hm.
    - assert (Hm1 : files (disk w1) !! rp = Some managed) by exact Hm.
      rewrite (existsSync_file _ _ _ Hm1).
      cbv beta iota delta [negb]. rewrite andb_false_r.
      unfold bind at 1. exists w1. split; [reflexivity | exact Hm].
    - assert (Hm1 : files (disk w1) !! rp = None) by exact Hm.
      rewrite (existsSync_absent _ _ Hm1 Hrd1).
      destruct (files (disk w) !! lp) as [live|] eqn:Hl.
      + assert (Hl1 : files (disk w1) !! lp = Some live) by exact Hl.
        rewrite (existsSync_file _ _ _ Hl1). cbv beta iota delta [negb andb].
        unfold bind at 1. unfold bind at 1.
        unfold copyFile, bind at 1, needPath, ret. unfold bind at 1.
        rewrite Hl1. unfold logInfo, emit. cbn [disk files dirs trace].
        eexists. split; [reflexivity|]. cbn [disk files].
        apply lookup_insert_eq.
      + assert (Hl1 : files (disk w1) !! lp = None) by exact Hl.
        rewrite (existsSync_absent _ _ Hl1 Hld1).
        cbv beta iota delta [negb andb].
        unfold bind at 1. unfold bind at 1.
        unfold writeFile, bind at 1, needPath, ret.
        unfold logInfo, emit. cbn [disk files dirs trace].
        eexists. split; [reflexivity|]. cbn [disk files].
        apply lookup_insert_eq. }
  destruct Hsteps as (wmid & -> & Hmid).
  split; [apply returns_tt, commitManaged_returns|].
  now rewrite commitManaged_keeps by exact Hkeep.
Qed.

Lemma init_seeds_managed_witness :
  files (disk (snd (initWarden (Demo.host Demo.shellBackupStaged) Demo.config
                      (Demo.world "{mine}" "{live}"))))
    !! "/srv/warden/config/openclaw.json" = Some "{mine}".
Proof.
  destruct (init_seeds_managed (Demo.host Demo.shellBackupStaged) Demo.config
              Demo.thePaths "/srv/warden/config/openclaw.json"
              "/home/op/.openclaw/openclaw.json" (Demo.world "{mine}" "{live}"))
    as (_ & Hm);
    [ first [ reflexivity | discriminate
            | intros tr d dir cmd; reflexivity
            | vm_compute; intros Hx; apply elem_of_singleton in Hx;
              discriminate ] ..
    | exact Hm ].
Defined.

(** ** The callback of the watcher *)

(** X14. The debounced callback of [watchConfig] never throws: when the
    push succeeds the last line logged is the confirmation, and when the
    push throws, the error is logged as an error line and nothing else
    follows. *)
Theorem watch_callback_contains_errors (H : Host) (config : Config)
    (w : World) :
  fst (watchCallback H config w) = Returns tt
  /\ (forall w1, syncPush H config w = (Returns tt, w1) ->
      trace (snd (watchCallback H config w))
      = trace w1 ++ [EvLog Info "Applied config after change."])
  /\ (forall e w1, syncPush H config w = (Throws e, w1) ->
      watchCallback H config w
      = (Returns tt,
         {| disk := disk w1;
            trace := trace w1 ++ [EvLog Error (errorText e)] |})).
Proof.
  unfold watchCallback, tryCatch, bind, logInfo, logError, emit.
  destruct (syncPush H config w) as [[[]|e] w1]; cbn.
  - split; [reflexivity|]. split.
    + intros w2 Heq. now inversion Heq.
    + intros e w2 Heq. discriminate.
  - split; [reflexivity|]. split.
    + intros w2 Heq. discriminate.
    + intros e' w2 Heq. now inversion Heq.
Qed.

(** ** The debounce of the watcher *)

Lemma watch_from horizon : forall changes t0 acc,
  increasing (t0 :: changes) ->
  Forall (fun t => t + 400 <= horizon)%Z (t0 :: changes) ->
  expire horizon
    (fold_left onChange changes
       {| pending := Some (t0 + 400)%Z; pushed := acc |})
  = {| pending := None;
       pushed := acc ++ map (fun t => t + 400)%Z (burstEnds (t0 :: changes)) |}.
Proof.
  induction changes as [|t' rest IH]; intros t0 acc Hinc Hhor.
  - simpl. unfold expire. simpl.
    inversion Hhor as [|x l Hx _]; subst.
    destruct (Z.leb_spec (t0 + 400) horizon); [reflexivity | lia].
  - simpl fold_left. unfold onChange at 2, expire at 2.
    cbn [pending pushed].
    destruct Hinc as [Hle Hinc]. inversion Hhor as [|x l _ Hhor']; subst.
    change (burstEnds (t0 :: t' :: rest))
      with (if (t0 + 400 <=? t')%Z then t0 :: burstEnds (t' :: rest)
            else burstEnds (t' :: rest)).
    destruct (t0 + 400 <=? t')%Z; unfold schedule; cbn [pending pushed].
    + rewrite IH by assumption. simpl. now rewrite <- app_assoc.
    + now rewrite IH by assumption.
Qed.

Lemma watchRun_bursts (changes : list Z) (horizon : Z) :
  increasing changes ->
  Forall (fun t => t + 400 <= horizon)%Z changes ->
  watchRun changes horizon
  = {| pending := None;
       pushed := map (fun t => t + 400)%Z (burstEnds changes) |}.
Proof.
  intros Hinc Hhor. destruct changes as [|t0 rest]; [reflexivity|].
  unfold watchRun. simpl fold_left.
  unfold onChange at 2, expire at 2, schedule. cbn [pending pushed].
  now rewrite watch_from.
Qed.

(** X15. The debounce of [watchConfig]: for change notifications at
    increasing times, once the clock is 400 ms past the last one, a push
    was started exactly once per burst, 400 ms after the last change of
    the burst (a burst ends where the next change comes 400 ms later or
    more), and no timer is left armed. *)
Theorem debounce_once_per_burst (changes : list Z) (horizon : Z) :
  increasing changes ->
  Forall (fun t => t + 400 <= horizon)%Z changes ->
  watchRun changes horizon
  = {| pending := None;
       pushed := map (fun t => t + 400)%Z (burstEnds changes) |}.
Proof.
  intros Hinc Hhor. now apply watchRun_bursts.
Qed.

Lemma debounce_once_per_burst_witness :
  pushed (watchRun [0; 100; 250; 900; 1000]%Z 2000%Z) = [650; 1400]%Z.
Proof.
  rewrite (debounce_once_per_burst [0; 100; 250; 900; 1000]%Z 2000%Z).
  - reflexivity.
  - simpl. lia.
  - repeat constructor; lia.
Defined.

Lemma last_cons_default {A} (a : A) l d d' :
  List.last (a :: l) d = List.last (a :: l) d'.
Proof.
  revert a. induction l as [|b l IH]; intros a; [reflexivity|].
  change (List.last (a :: b :: l) d) with (List.last (b :: l) d).
  change (List.last (a :: b :: l) d') with (List.last (b :: l) d').
  apply IH.
Qed.

Lemma burstEnds_tight : forall rest t0,
  tight (t0 :: rest) -> burstEnds (t0 :: rest) = [List.last rest t0].
Proof.
  induction rest as [|t' rest IH]; intros t0 Ht; [reflexivity|].
  destruct Ht as [[Hle Hlt] Ht].
  change (burstEnds (t0 :: t' :: rest))
    with (if (t0 + 400 <=? t')%Z then t0 :: burstEnds (t' :: rest)
          else burstEnds (t' :: rest)).
  destruct (Z.leb_spec (t0 + 400) t'); [lia|].
  rewrite IH by exact Ht. destruct rest as [|z rest]; [reflexivity|].
  f_equal. change (List.last (t' :: z :: rest) t0)
    with (List.last (z :: rest) t0).
  apply last_cons_default.
Qed.

Lemma tight_increasing : forall changes, tight changes -> increasing changes.
Proof.
  induction changes as [|t rest IH]; [trivial|].
  destruct rest as [|t' rest]; [trivial|].
  intros [[Hle _] Ht]. split; [exact Hle | now apply IH].
Qed.

(** X16. Any number of change notifications that each come less than
    400 ms after the one before start exactly one push, 400 ms after the
    last of them. *)
Theorem burst_pushes_once (first : Z) (more : list Z) (horizon : Z) :
  tight (first :: more) ->
  Forall (fun t => t + 400 <= horizon)%Z (first :: more) ->
  pushed (watchRun (first :: more) horizon)
  = [(List.last more first + 400)%Z].
Proof.
  intros Ht Hhor.
  rewrite watchRun_bursts by (auto using tight_increasing).
  cbn [pushed]. now rewrite burstEnds_tight.
Qed.

Lemma burst_pushes_once_witness :
  pushed (watchRun [10; 50; 300; 699]%Z 1099%Z) = [1099%Z].
Proof.
  rewrite (burst_pushes_once 10%Z [50; 300; 699]%Z 1099%Z).
  - reflexivity.
  - simpl. lia.
  - repeat constructor; lia.
Defined.

(** ** The daemon supervisor *)

Section DaemonFacts.

Context (H : Host) (os : Os).

Lemma readPid_eq s : readPid H os s = (Returns (recordedPid H os s), s).
Proof.
  destruct s as [w log].
  cbv beta iota delta
    [readPid recordedPid lift tryCatch bind readFile needPath ret dworld oslog].
  destruct (files (disk w) !! DAEMON_PID H); reflexivity.
Qed.

Lemma alive_eq s :
  (if pidTruthy os (recordedPid H os s)
   then isProcessAlive os (recordedPid H os s) else dret false) s
  = (Returns (recordedAlive H os s), s).
Proof.
  unfold recordedAlive, pidTruthy, isProcessAlive, dret.
  destruct (recordedPid H os s) as [n|]; [|reflexivity].
  destruct (pid_truthy os n); reflexivity.
Qed.

Lemma daemonStart_alive s :
  recordedAlive H os s = true ->
  daemonStart H os s
  = (Returns tt,
     {| dworld :=
          {| disk := disk (dworld s);
             trace := trace (dworld s)
               ++ [EvLog Info ("Daemon already running (pid "
                                 +:+ pidText os (recordedPid H os s)
                                 +:+ ").")] |};
        oslog := oslog s |}).
Proof.
  intros Ha. unfold daemonStart, dbind.
  rewrite readPid_eq, alive_eq, Ha. reflexivity.
Qed.

Lemma daemonStart_spawns s :
  recordedAlive H os s = false ->
  files (disk (dworld s)) !! DAEMON_DIR H = None ->
  files (disk (dworld s)) !! path_dirname H (DAEMON_PID H) = None ->
  path_dirname H (DAEMON_PID H) <> DAEMON_LOG H ->
  exists s1 line,
    daemonStart H os s = (Returns tt, s1)
    /\ files (disk (dworld s1)) !! DAEMON_PID H
       = Some (pidText os (spawn_child os (trace (dworld s)) (oslog s))
                 +:+ newline)
    /\ oslog s1
       = oslog s ++ [Spawned (spawn_child os (trace (dworld s)) (oslog s))]
    /\ trace (dworld s1) = trace (dworld s) ++ [line].
Proof.
  intros Ha Hdir Hpd Hne. destruct s as [w log]. cbn [dworld oslog] in *.
  unfold daemonStart, dbind.
  rewrite readPid_eq, alive_eq, Ha.
  unfold lift at 1. unfold ensureDir at 1. cbn [dworld oslog]. rewrite Hdir.
  assert (Hopen : forall w0, exists fs,
            openAppend (DAEMON_LOG H) w0
            = (Returns tt,
               {| disk := {| files := fs; dirs := dirs (disk w0) |};
                  trace := trace w0 |})
            /\ (forall q, q <> DAEMON_LOG H ->
                fs !! q = files (disk w0) !! q)).
  { intros w0. unfold openAppend.
    destruct (files (disk w0) !! DAEMON_LOG H).
    - exists (files (disk w0)). split; [now destruct w0 as [[] ?]|auto].
    - eexists. split; [reflexivity|]. intros q Hq.
      now rewrite lookup_insert_ne by congruence. }
  unfold lift at 1. cbn [dworld oslog].
  match goal with
  | |- context [openAppend (DAEMON_LOG H) ?w0] =>
      destruct (Hopen w0) as (fs1 & -> & Hfs1)
  end.
  unfold lift at 1. cbn [dworld oslog].
  match goal with
  | |- context [openAppend (DAEMON_LOG H) ?w0] =>
      destruct (Hopen w0) as (fs2 & -> & Hfs2)
  end.
  cbn [disk files dirs trace] in *.
  unfold spawnDaemon at 1. cbn [dworld oslog trace].
  unfold writePid, lift at 1. cbn [dworld oslog].
  unfold bind at 1. unfold ensureDir at 1. cbn [disk files dirs trace].
  rewrite Hfs2, Hfs1, Hpd by congruence.
  unfold writeFile, bind, needPath, ret. cbn [disk files dirs trace].
  unfold lift, logInfo, emit. cbn [dworld oslog disk files dirs trace].
  eexists. eexists. split; [reflexivity|].
  cbn [dworld oslog disk files trace].
  split; [apply lookup_insert_eq|]. split; reflexivity.
Qed.

End DaemonFacts.

(** X17. [daemonStart] while the recorded process answers is a no-op: no
    process is spawned, no file or directory changes, and only the
    "already running" line is logged. *)
Theorem start_while_running (H : Host) (os : Os) (s : DState os) :
  recordedAlive H os s = true ->
  fst (daemonStart H os s) = Returns tt
  /\ oslog (snd (daemonStart H os s)) = oslog s
  /\ disk (dworld (snd (daemonStart H os s))) = disk (dworld s)
  /\ trace (dworld (snd (daemonStart H os s)))
     = trace (dworld s)
         ++ [EvLog Info ("Daemon already running (pid "
                           +:+ pidText os (recordedPid H os s) +:+ ").")].
Proof.
  intros Ha. rewrite (daemonStart_alive H os s Ha). repeat split.
Qed.

(** X18. [daemonStart] twice in a row spawns exactly one process. The
    first call, made while no recorded process answers, spawns the daemon
    and records its id; the second call finds it and spawns nothing,
    provided the id it was given reads back from its decimal text, is not
    zero, and the process answers once spawned. The daemon directory and
    the directory of the pid file must not be files. *)
Theorem start_twice_spawns_once (H : Host) (os : Os) (s : DState os)
    (n : Pid os) :
  recordedAlive H os s = false ->
  files (disk (dworld s)) !! DAEMON_DIR H = None ->
  files (disk (dworld s)) !! path_dirname H (DAEMON_PID H) = None ->
  path_dirname H (DAEMON_PID H) <> DAEMON_LOG H ->
  spawn_child os (trace (dworld s)) (oslog s) = Some n ->
  pid_of_text os (pid_text os n +:+ newline) = Some n ->
  pid_truthy os n = true ->
  (forall tr, probe_alive os tr (oslog s ++ [Spawned (Some n)]) n = true) ->
  fst (daemonStart H os s) = Returns tt
  /\ fst (daemonStart H os (snd (daemonStart H os s))) = Returns tt
  /\ oslog (snd (daemonStart H os (snd (daemonStart H os s))))
     = oslog s ++ [Spawned (Some n)]
  /\ recordedPid H os (snd (daemonStart H os (snd (daemonStart H os s))))
     = Some n.
Proof.
  intros Ha Hdir Hpd Hne Hchild Hread Htruthy Hprobe.
  destruct (daemonStart_spawns H os s Ha Hdir Hpd Hne)
    as (s1 & line & Hs1 & Hfile & Hlog & Htr).
  rewrite Hs1. cbn [fst snd]. split; [reflexivity|].
  rewrite Hchild in Hfile, Hlog. cbn [pidText] in Hfile.
  assert (Hrec : recordedPid H os s1 = Some n).
  { unfold recordedPid. now rewrite Hfile. }
  assert (Ha1 : recordedAlive H os s1 = true).
  { unfold recordedAlive. now rewrite Hrec, Htruthy, Hlog, Hprobe. }
  rewrite (daemonStart_alive H os s1 Ha1). cbn [fst snd oslog].
  split; [reflexivity|]. split; [exact Hlog|].
  unfold recordedPid in *. cbn [dworld disk]. exact Hrec.
Qed.

Lemma start_twice_spawns_once_witness :
  spawnsOf (oslog (snd (daemonStart (Demo.host Demo.shellClean) DemoOs.os
                          (snd (daemonStart (Demo.host Demo.shellClean)
                                  DemoOs.os DemoOs.fresh))))) = 1.
Proof.
  destruct (start_twice_spawns_once (Demo.host Demo.shellClean) DemoOs.os
              DemoOs.fresh 4242%N)
    as (_ & _ & Hlog & _);
    [ first [ reflexivity | discriminate | intros tr; reflexivity ] ..
    | rewrite Hlog; reflexivity ].
Defined.

Lemma start_while_running_witness :
  spawnsOf (oslog (snd (daemonStart (Demo.host Demo.shellClean) DemoOs.os
                          (snd (daemonStart (Demo.host Demo.shellClean)
                                  DemoOs.os DemoOs.fresh)))))
  = spawnsOf (oslog (snd (daemonStart (Demo.host Demo.shellClean) DemoOs.os
                            DemoOs.fresh))).
Proof.
  destruct (start_while_running (Demo.host Demo.shellClean) DemoOs.os
              (snd (daemonStart (Demo.host Demo.shellClean) DemoOs.os
                      DemoOs.fresh)))
    as (_ & Hlog & _); [reflexivity | now rewrite Hlog].
Defined.

(** X19. [daemonStop] never throws, also when the signal cannot be
    delivered. It signals the recorded process once when a non-zero id is
    on record, and not at all otherwise; it then removes the record, so
    that afterwards no process is considered running and [daemonStatus]
    logs "Daemon not running.", whether or not the process went away. *)
Theorem stop_clears_record (H : Host) (os : Os) (s : DState os) :
  fst (daemonStop H os s) = Returns tt
  /\ signalsOf (oslog (snd (daemonStop H os s)))
     = signalsOf (oslog s)
       + (if pidTruthy os (recordedPid H os s) then 1 else 0)
  /\ (pidTruthy os (recordedPid H os s) = true ->
      files (disk (dworld (snd (daemonStop H os s)))) !! DAEMON_PID H = None)
  /\ recordedAlive H os (snd (daemonStop H os s)) = false
  /\ daemonStatus H os (snd (daemonStop H os s))
     = (Returns tt,
        {| dworld :=
             {| disk := disk (dworld (snd (daemonStop H os s)));
                trace := trace (dworld (snd (daemonStop H os s)))
                  ++ [EvLog Info "Daemon not running."] |};
           oslog := oslog (snd (daemonStop H os s)) |}).
Proof.
  assert (Hstatus : forall s1, recordedAlive H os s1 = false ->
    daemonStatus H os s1
    = (Returns tt,
       {| dworld := {| disk := disk (dworld s1);
                       trace := trace (dworld s1)
                         ++ [EvLog Info "Daemon not running."] |};
          oslog := oslog s1 |})).
  { intros s1 Ha. unfold daemonStatus, dbind.
    rewrite readPid_eq, alive_eq, Ha. reflexivity. }
  assert (Hfilter : forall (log : list (OsEvent (Pid os))) n,
            signalsOf (log ++ [Terminated n]) = signalsOf log + 1).
  { intros log n. unfold signalsOf.
    now rewrite List.filter_app, length_app. }
  destruct s as [w log].
  unfold daemonStop, dbind. rewrite readPid_eq.
  unfold pidTruthy.
  destruct (recordedPid H os {| dworld := w; oslog := log |}) as [n|] eqn:Hrec.
  - destruct (pid_truthy os n) eqn:Htruthy; cbn [negb].
    + unfold dtryCatch, killTerm. cbn [dworld oslog].
      assert (Hafter : forall s1,
        files (disk (dworld s1)) !! DAEMON_PID H = None ->
        recordedAlive H os s1 = false).
      { intros s1 Hf. unfold recordedAlive, recordedPid. now rewrite Hf. }
      destruct (send_term os (trace w) log n) as [err|];
        unfold lift, clearPid, logWarn, logInfo, emit;
        cbn [dworld oslog disk files dirs trace fst snd];
        (split; [reflexivity|]); (split; [apply Hfilter|]);
        (split; [intros _; apply lookup_delete_eq|]);
        (split; [apply Hafter; apply lookup_delete_eq|]);
        apply Hstatus, Hafter; apply lookup_delete_eq.
    + unfold lift, logWarn, emit. cbn [dworld oslog fst snd].
      assert (Ha : recordedAlive H os
                     {| dworld := {| disk := disk w;
                                     trace := trace w
                                       ++ [EvLog Warn "Daemon pid not found."] |};
                        oslog := log |} = false).
      { unfold recordedAlive, recordedPid in *. cbn [dworld oslog disk] in *.
        now rewrite Hrec, Htruthy. }
      split; [reflexivity|]. split; [lia|]. split; [discriminate|].
      split; [exact Ha | exact (Hstatus _ Ha)].
  - unfold lift, logWarn, emit. cbn [dworld oslog fst snd].
    assert (Ha : recordedAlive H os
                   {| dworld := {| disk := disk w;
                                   trace := trace w
                                     ++ [EvLog Warn "Daemon pid not found."] |};
                      oslog := log |} = false).
    { unfold recordedAlive, recordedPid in *. cbn [dworld oslog disk] in *.
      now rewrite Hrec. }
    split; [reflexivity|]. split; [lia|]. split; [discriminate|].
    split; [exact Ha | exact (Hstatus _ Ha)].
Qed.

(** ** [extractJson] *)

Section ExtractJsonFacts.

Context (H : Host).

Lemma lastJsonLine_head ls :
  lastJsonLine H ls = head (omap (lineJson H) ls).
Proof.
  induction ls as [|l ls IH]; [reflexivity|].
  cbn [lastJsonLine omap list_omap]. unfold lineJson at 1. cbv zeta.
  destruct (negb (String.prefix "{" (str_trim H l))); [exact IH|].
  destruct (json_parse H (str_trim H l)); [exact IH | reflexivity].
Qed.

Lemma omap_rejected (ls : list string) :
  Forall (fun x => lineJson H x = None) ls -> omap (lineJson H) ls = [].
Proof.
  induction 1 as [|x ls Hx _ IH]; [reflexivity|].
  cbn [omap list_omap]. now rewrite Hx.
Qed.

Lemma jsonLines_empty : jsonLines "" = [].
Proof. reflexivity. Qed.

Lemma lastIndexOfChar_app c pre rest :
  lastIndexOfChar c rest = None ->
  lastIndexOfChar c (pre +:+ String c rest)
  = Some (Stdlib.Strings.String.length pre).
Proof.
  intros Hrest. induction pre as [|a pre IH].
  - rewrite app_empty. cbn [lastIndexOfChar]. rewrite Hrest.
    now rewrite Ascii.eqb_refl.
  - rewrite app_cons. cbn [lastIndexOfChar]. now rewrite IH.
Qed.

Lemma substring_all s :
  String.substring 0 (Stdlib.Strings.String.length s) s = s.
Proof.
  induction s as [|a s IH]; [reflexivity|].
  cbn [Stdlib.Strings.String.length String.substring]. now rewrite IH.
Qed.

Lemma sliceFrom_app pre s :
  Js.sliceFrom (Stdlib.Strings.String.length pre) (pre +:+ s) = s.
Proof.
  unfold Js.sliceFrom. induction pre as [|a pre IH].
  - rewrite app_empty. cbn [Stdlib.Strings.String.length].
    rewrite Nat.sub_0_r. apply substring_all.
  - rewrite app_cons.
    cbn [Stdlib.Strings.String.length String.substring Nat.sub]. exact IH.
Qed.

End ExtractJsonFacts.

(** X20. [extractJson] gives the value of the last line that parses: when
    the non-empty lines of the text are [pre ++ l :: post], the line [l]
    (trimmed) starts with a brace and parses to [j], and every later line
    is passed over (no opening brace, or a parse error), the result is [j],
    whatever the earlier lines hold. *)
Theorem last_json_line_wins (H : Host) (text : string)
    (pre post : list string) (l : string) (j : Json H) :
  jsonLines text = pre ++ l :: post ->
  lineJson H l = Some j ->
  Forall (fun x => lineJson H x = None) post ->
  extractJson H text = Some j.
Proof.
  intros Hlines Hl Hpost. unfold extractJson.
  destruct (Js.truthy (Some text)) eqn:Ht; cbn [negb].
  - rewrite lastJsonLine_head, Hlines, rev_app_distr. cbn [rev].
    rewrite <- app_assoc, !omap_app.
    assert (Hrev : omap (lineJson H) (rev post) = []).
    { now apply omap_rejected, List.Forall_rev. }
    rewrite Hrev. cbn [omap list_omap app]. now rewrite Hl.
  - unfold Js.truthy in Ht. apply negb_false_iff, String.eqb_eq in Ht.
    subst text. rewrite jsonLines_empty in Hlines.
    now destruct pre.
Qed.

Lemma last_json_line_wins_witness :
  extractJson (Demo.host Demo.shellClean)
    (String.concat newline ["starting"; "{first}"; "{second}"; "done"])
  = Some "{second}".
Proof.
  apply (last_json_line_wins (Demo.host Demo.shellClean) _
           ["starting"; "{first}"] ["done"] "{second}");
    [ reflexivity | reflexivity | repeat constructor ].
Defined.

(** X21. The fallback of [extractJson]: when no line yields a value and the
    text is [pre] followed by a brace and a rest that holds no further
    brace, the result is the parse of the (trimmed) text from that last
    brace to the end, and nothing when that does not parse. *)
Theorem fallback_from_last_brace (H : Host) (pre rest : string) :
  Forall (fun x => lineJson H x = None)
    (jsonLines (pre +:+ String "{" rest)) ->
  lastIndexOfChar "{" rest = None ->
  extractJson H (pre +:+ String "{" rest)
  = match json_parse H (str_trim H (String "{" rest)) with
    | inr j => Some j
    | inl _ => None
    end.
Proof.
  intros Hlines Hrest. unfold extractJson.
  assert (Ht : Js.truthy (Some (pre +:+ String "{" rest)) = true).
  { destruct pre; reflexivity. }
  rewrite Ht. cbn [negb].
  rewrite lastJsonLine_head.
  assert (Hrev : omap (lineJson H)
                   (rev (jsonLines (pre +:+ String "{" rest))) = []).
  { now apply omap_rejected, List.Forall_rev. }
  rewrite Hrev. cbn [head].
  rewrite (lastIndexOfChar_app _ _ _ Hrest), sliceFrom_app.
  reflexivity.
Qed.

Lemma fallback_from_last_brace_witness :
  extractJson (Demo.host Demo.shellClean)
    ("status: {" +:+ String.concat newline ["ok"; "end"])
  = Some ("{" +:+ String.concat newline ["ok"; "end"]).
Proof.
  apply (fallback_from_last_brace (Demo.host Demo.shellClean) "status: "
           (String.concat newline ["ok"; "end"]));
    [ repeat constructor | reflexivity ].
Defined.

(** ** A configuration without its paths *)

Lemma cycle_without_paths (H : Host) (config : Config) (w : World) :
  paths config = None ->
  Js.truthy (checkCommand (hbOf config)) = true ->
  exists evs,
    execsOf evs = []
    /\ runHeartbeatOnce H config w
       = (Throws (typeError
                    "Cannot read properties of undefined (reading 'repoConfig')"),
          {| disk := disk w; trace := trace w ++ evs |}).
Proof.
  intros Hp Ht. unfold runHeartbeatOnce. rewrite Ht. cbn [negb].
  unfold bind at 1. unfold getWorld.
  destruct (Js.truthy (sendCommand (hbOf config))) eqn:Hs.
  - exists []. split; [reflexivity|].
    unfold send, buildCommand. rewrite Hp. unfold bind, throw.
    rewrite app_nil_r. now destruct w.
  - destruct (waitSecondsOf config) as [|wait rest] eqn:Hw.
    + exists [EvLog Warn
                "Heartbeat failed after retries. Restarting gateway..."].
      split; [reflexivity|].
      cbn [attempts length]. unfold buildCommand. rewrite Hp.
      unfold bind, ret, throw, logWarn, emit. reflexivity.
    + exists [EvSleep (wait * 1000)%Z]. split; [reflexivity|].
      cbn [attempts]. unfold check, buildCommand. rewrite Hp.
      unfold bind, ret, throw, sleep, emit. reflexivity.
Qed.

(** X22. The heartbeat mode with a check command and a configuration that
    has no [paths] object: the first cycle throws before any subprocess
    runs, nothing catches the error on the way, and the process logs
    "Cannot read properties of undefined (reading 'repoConfig')" as an
    error and exits with status 1, the disk untouched. This holds whatever
    the other settings and the commands are. *)
Theorem heartbeat_without_paths_exits (H : Host) (config : Config)
    (w : World) :
  paths config = None ->
  Js.truthy (checkCommand (hbOf config)) = true ->
  exists evs,
    execsOf evs = []
    /\ mainHeartbeat H config w
       = (Returns tt,
          {| disk := disk w;
             trace := (trace w ++ evs)
               ++ [EvLog Error
                     "Cannot read properties of undefined (reading 'repoConfig')";
                   EvExit 1] |}).
Proof.
  intros Hp Ht.
  destruct (cycle_without_paths H config w Hp Ht) as (evs & Hex & Hc).
  exists evs. split; [exact Hex|].
  now rewrite (cycle_error_exits H config w _ _ Hc).
Qed.

Lemma heartbeat_without_paths_exits_witness :
  exists evs,
    execsOf evs = []
    /\ mainHeartbeat (Demo.host Demo.shellClean) Demo.configNoPaths
         (Demo.world "{}" "{}")
       = (Returns tt,
          {| disk := Demo.diskOf "{}" "{}";
             trace := ([] ++ evs)
               ++ [EvLog Error
                     "Cannot read properties of undefined (reading 'repoConfig')";
                   EvExit 1] |}).
Proof.
  apply (heartbeat_without_paths_exits (Demo.host Demo.shellClean)
           Demo.configNoPaths (Demo.world "{}" "{}"));
    reflexivity.
Defined.

